(** * NIST DTR Radar Target Simulator: the Doppler audio engine of dtrradarsim.py

    A shallow embedding of [MainWindow.calc_frequency], [MainWindow.create_sine],
    [MainWindow.run] and of the getters of the simple and the advanced window
    that [run] reads, followed by the properties of the engine.

    Numbers.  The engine is embedded twice.  For the runs, the scaling
    step and the order of the events, a Python float is an exact rational
    ([Qc], the rationals in lowest terms) or one of the three special
    values of a double: +inf, -inf and nan; there the finite arithmetic is
    exact and there is one zero.  The special values follow IEEE 754 as
    numpy applies it: [0/0] is nan, [x/0] is an infinity, nan is
    contagious, and none of them raises.  For the numbers themselves (the
    Doppler equation, the unit conversion, the sample count and the
    samples of [create_sine]) a Python float is an IEEE 754 binary64
    number, [Double] below, with the rounding, the overflow, the underflow
    and the signed zeros of every operation.

    Effects.  A call either returns or raises ([py]); a run is the list of
    its events (the [create_sine] calls, the error dialogs, the arrays
    played) with the exception that ended it, if one did.

    The source is Python 2 (OcempGUI, the commented [print] statements):
    [round] rounds a half away from zero and returns a float.

    Outside the repository and taken as parameters: Python's built-in
    [float()] on a text, and [numpy.cos]. *)

From Stdlib Require Import ZArith QArith Qcanon Qcabs Qround.
From Stdlib Require Import List Ascii String Bool Lia Lqa.
From Stdlib Require Import SpecFloat.
Import ListNotations.

Local Open Scope Z_scope.

(** ** Python floats *)

Module Float.

Inductive float : Type :=
| Fin (q : Qc)
| PInf
| NInf
| NaN.

(** An integer as a rational, and as a float. *)
Definition qz (z : Z) : Qc := Q2Qc (inject_Z z).

Definition of_Z (z : Z) : float := Fin (qz z).

(** A decimal literal [m * 10^-k], as [1609.34] or [1.9] in the source. *)
Definition qdec (m : Z) (k : positive) : Qc := Q2Qc (Qmake m (10 ^ k)).

Definition dec (m : Z) (k : positive) : float := Fin (qdec m k).

Definition zero : float := of_Z 0.
Definition one : float := of_Z 1.

Definition is_finite (x : float) : bool :=
  match x with Fin _ => true | _ => false end.

Definition is_nan (x : float) : bool :=
  match x with NaN => true | _ => false end.

(** [x == 0.0] *)
Definition is_zero (x : float) : bool :=
  match x with
  | Fin q => match Qccompare q 0%Qc with Eq => true | _ => false end
  | _ => false
  end.

(** The infinity of the given sign ([Lt]: negative, [Gt]: positive);
    [Eq] stands for the invalid operations, whose result is nan. *)
Definition inf_of (s : comparison) : float :=
  match s with Lt => NInf | Gt => PInf | Eq => NaN end.

Definition sgn (q : Qc) : comparison := Qccompare q 0%Qc.

Definition flip (s : comparison) : comparison := CompOpp s.

Definition opp (x : float) : float :=
  match x with
  | Fin q => Fin (- q)%Qc
  | PInf => NInf
  | NInf => PInf
  | NaN => NaN
  end.

Definition abs (x : float) : float :=
  match x with
  | Fin q => Fin (Qcabs q)
  | PInf | NInf => PInf
  | NaN => NaN
  end.

Definition add (x y : float) : float :=
  match x, y with
  | NaN, _ | _, NaN => NaN
  | Fin a, Fin b => Fin (a + b)%Qc
  | PInf, NInf | NInf, PInf => NaN
  | PInf, _ | _, PInf => PInf
  | NInf, _ | _, NInf => NInf
  end.

Definition sub (x y : float) : float := add x (opp y).

Definition mul (x y : float) : float :=
  match x, y with
  | NaN, _ | _, NaN => NaN
  | Fin a, Fin b => Fin (a * b)%Qc
  | Fin a, PInf | PInf, Fin a => inf_of (sgn a)
  | Fin a, NInf | NInf, Fin a => inf_of (flip (sgn a))
  | PInf, PInf | NInf, NInf => PInf
  | PInf, NInf | NInf, PInf => NInf
  end.

(** Division as numpy does it on doubles: a finite dividend over zero gives
    an infinity of the dividend's sign (the zero of the model is +0.0), and
    [0/0] and [inf/inf] give nan.  No exception is raised. *)
Definition div (x y : float) : float :=
  match x, y with
  | NaN, _ | _, NaN => NaN
  | Fin a, Fin b =>
      match sgn b with Eq => inf_of (sgn a) | _ => Fin (a / b)%Qc end
  | Fin _, (PInf | NInf) => zero
  | PInf, Fin b => match sgn b with Lt => NInf | _ => PInf end
  | NInf, Fin b => match sgn b with Lt => PInf | _ => NInf end
  | (PInf | NInf), (PInf | NInf) => NaN
  end.

(** The larger of two floats, nan winning, as [numpy.amax] combines the
    elements of an array. *)
Definition max (x y : float) : float :=
  match x, y with
  | NaN, _ | _, NaN => NaN
  | PInf, _ | _, PInf => PInf
  | NInf, z | z, NInf => z
  | Fin a, Fin b => match Qccompare a b with Lt => Fin b | _ => Fin a end
  end.

(** Python 2's [round(x)] on a float: to the nearest integer, a half away
    from zero; the result is a float again. *)
Definition round_half_away (q : Qc) : Z :=
  match sgn q with
  | Lt => - Qfloor (Qplus (Qopp q) (1 # 2))
  | _ => Qfloor (Qplus q (1 # 2))
  end.

Definition round (x : float) : float :=
  match x with
  | Fin q => of_Z (round_half_away q)
  | _ => x
  end.

(** Truncation toward zero of a finite float, Python's [int(x)]. *)
Definition trunc (q : Qc) : Z := Z.quot (Qnum q) (Zpos (Qden q)).

(** The sign of a product. *)
Definition sgn_times (s t : comparison) : comparison :=
  match s, t with
  | Eq, _ | _, Eq => Eq
  | Lt, Lt | Gt, Gt => Gt
  | _, _ => Lt
  end.

End Float.

Export Float (float, Fin, PInf, NInf, NaN).

Declare Scope float_scope.
Delimit Scope float_scope with float.
Bind Scope float_scope with float.
Infix "*" := Float.mul : float_scope.
Infix "/" := Float.div : float_scope.
Infix "+" := Float.add : float_scope.
Infix "-" := Float.sub : float_scope.

(** ** Python values, exceptions and arrays *)

(** The objects that reach the engine from the widgets: [None], a text, or
    an integer (the default amplitude [1] of [create_sine]). *)
Inductive pyobj : Type :=
| PyNone
| PyStr (s : string)
| PyInt (z : Z).

(** A direction is [True] (approaching), [False] (receding) or [None]. *)
Definition direction := option bool.

Inductive exn : Type :=
| ValueError
| TypeError
| OverflowError
| IndexError.

(** What a Python call gives: a value, or an exception that propagates. *)
Inductive py (A : Type) : Type :=
| Ret (a : A)
| Raise (e : exn).
Arguments Ret {A} a.
Arguments Raise {A} e.

Definition bind {A B : Type} (m : py A) (k : A -> py B) : py B :=
  match m with
  | Ret a => k a
  | Raise e => Raise e
  end.

Notation "x <- m ;; k" := (bind m (fun x => k))
  (at level 61, m at next level, right associativity).

(** A two-channel sample array of shape (N, 2): one row (left, right) per
    sample, the layout [create_sine] returns after the transposition. *)
Definition ndarray := list (float * float).

(** [x != None and x != ""], the test of [run] on a speed or an amplitude. *)
Definition specified (x : pyobj) : bool :=
  match x with
  | PyNone => false
  | PyStr s => negb (String.eqb s EmptyString)
  | PyInt _ => true
  end.

(** [numpy.arange(1, stop)] for an integer [stop]: 1, 2, ..., stop - 1,
    and nothing when [stop <= 1]. *)
Definition arange1 (stop : Z) : list Z :=
  map Z.of_nat (seq 1 (Z.to_nat (stop - 1))).

(** Python's [int(x)] on a float. *)
Definition py_int (x : float) : py Z :=
  match x with
  | Fin q => Ret (Float.trunc q)
  | NaN => Raise ValueError
  | PInf | NInf => Raise OverflowError
  end.

(** [numpy.array([ch_1, ch_2]).T] *)
Definition transpose2 (ch_1 ch_2 : list float) : ndarray := combine ch_1 ch_2.

(** [channels * amplitude] and [channels / maximum], element by element. *)
Definition scale (channels : ndarray) (amplitude : float) : ndarray :=
  map (fun row => (fst row * amplitude, snd row * amplitude)%float) channels.

Definition divide (channels : ndarray) (maximum : float) : ndarray :=
  map (fun row => (fst row / maximum, snd row / maximum)%float) channels.

(** [numpy.abs(channels)] *)
Definition np_abs (channels : ndarray) : ndarray :=
  map (fun row => (Float.abs (fst row), Float.abs (snd row))) channels.

(** The elements of an array in row-major order. *)
Definition flatten (channels : ndarray) : list float :=
  flat_map (fun row => [fst row; snd row]) channels.

(** [numpy.amax(a)]: the largest element of the whole array; on an array
    with no element numpy raises ValueError. *)
Definition amax (a : ndarray) : py float :=
  match flatten a with
  | [] => Raise ValueError
  | x :: xs => Ret (fold_left Float.max xs x)
  end.

(** [a += b] on two arrays: element-wise when the shapes agree; numpy
    raises ValueError when they cannot be combined. *)
Definition iadd (a b : ndarray) : py ndarray :=
  if Nat.eqb (List.length a) (List.length b)
  then Ret (map (fun p => (fst (fst p) + fst (snd p), snd (fst p) + snd (snd p))%float)
                (combine a b))
  else Raise ValueError.

(** The scaling step at the end of both branches of [run]:
    [maximum = numpy.amax(numpy.abs(channels)); channels = channels/maximum]. *)
Definition normalize (channels : ndarray) : py ndarray :=
  maximum <- amax (np_abs channels) ;;
  Ret (divide channels maximum).

(** ** The widgets the engine reads *)

Record SimpleWindow : Type := {
  sw_speed_entry : pyobj;
  sw_dur_entry : pyobj;
  appro_rad : bool;
  recede_rad : bool
}.

Record AdvancedWindow : Type := {
  aw_dur_entry : pyobj;
  speed_entries : list pyobj;
  appr_buttons : list bool;
  amp_entries : list pyobj
}.

Record MainWindow : Type := {
  simple_win : SimpleWindow;
  advanced_win : AdvancedWindow;
  (** [simple_win.get_main_table() == main_frame.children[0]] *)
  simple_shown : bool;
  metric_button : bool;
  kband_rad : bool;
  kaband_rad : bool;
  xband_rad : bool
}.

Module Simple.
Definition get_speed (w : SimpleWindow) : pyobj := sw_speed_entry w.
Definition get_duration (w : SimpleWindow) : pyobj := sw_dur_entry w.
Definition get_direct (w : SimpleWindow) : direction :=
  if appro_rad w then Some true
  else if recede_rad w then Some false
  else None.
End Simple.

Module Advanced.
Definition get_speed (w : AdvancedWindow) : list pyobj := speed_entries w.
Definition get_direction (w : AdvancedWindow) : list direction :=
  map (fun cb : bool => if cb then Some false else Some true) (appr_buttons w).
Definition get_duration (w : AdvancedWindow) : pyobj := aw_dur_entry w.
Definition get_amplitude (w : AdvancedWindow) : list pyobj := amp_entries w.

(** [AdvancedWindow.init(num_vehicles)]: an empty duration entry and, for
    each vehicle, an empty speed entry, an unchecked button and an empty
    amplitude entry. *)
Definition init (num_vehicles : nat) : AdvancedWindow :=
  {| aw_dur_entry := PyStr "";
     speed_entries := repeat (PyStr "") num_vehicles;
     appr_buttons := repeat false num_vehicles;
     amp_entries := repeat (PyStr "") num_vehicles |}.

(** The three widget lists have one element per vehicle, as [init] builds
    them and as they stay while the user fills the entries in. *)
Definition one_per_vehicle (w : AdvancedWindow) : Prop :=
  List.length (appr_buttons w) = List.length (speed_entries w)
  /\ List.length (amp_entries w) = List.length (speed_entries w).
End Advanced.

(** The error texts of the source. *)
Definition DIR_ERROR : string := "DIR ERROR".
Definition CONVERT_ERROR : string := "CONVERT ERROR".
Definition TRANSMIT_FREQ_ERROR : string := "TRANSMIT FREQ ERROR".
Definition DATA_ERROR : string := "DATA ERROR".

(** ** The engine: [MainWindow.calc_frequency], [create_sine] and [run] *)

(** What [create_sine] returns: the sample array, or an error text. *)
Inductive sine : Type :=
| Channels (channels : ndarray)
| Message (text : string).

(** One entry of [vehicle_data]: [[speed, direction, amplitude]]. *)
Definition vehicle : Type := pyobj * direction * pyobj.

(** What [run] does that can be seen from outside, in order: the calls of
    [create_sine] (with their arguments), the error dialogs opened by
    [create_error_window], and the arrays handed to [sounddevice.play]. *)
Inductive event : Type :=
| CreateSine (speed_units : pyobj) (dir : direction) (duration amplitude : pyobj)
| ErrorWindow (error_string : string)
| Play (channels : ndarray).

(** How the loop of [run] over [vehicle_data] ends: all vehicles done, left
    by [break] with [error = True], or left by an exception. *)
Inductive loop_end : Type :=
| Completed (sine_wave_data : list ndarray)
| Broke
| Uncaught (e : exn).

Section Engine.

(** Python's [float(s)] on a text: [None] when it raises ValueError. *)
Variable float_of_str : string -> option float.

(** [numpy.cos] on one element. *)
Variable cos : float -> float.

Definition FREQUENCY_SAMPLE : float := Float.of_Z 44100.

(** [numpy.pi], the double 3.141592653589793, written exactly. *)
Definition pi : float := Fin (Q2Qc (884279719003555 # 281474976710656)).

(** Python's [float(x)]. *)
Definition py_float (x : pyobj) : py float :=
  match x with
  | PyNone => Raise TypeError
  | PyStr s => match float_of_str s with
               | Some v => Ret v
               | None => Raise ValueError
               end
  | PyInt z => Ret (Float.of_Z z)
  end.

(** The transmit band whose radio button [calc_frequency] finds active,
    the buttons tried in the order K, Ka, X. *)
Inductive Band : Type := K | Ka | X.

Definition band_of (self : MainWindow) : option Band :=
  if kband_rad self then Some K
  else if kaband_rad self then Some Ka
  else if xband_rad self then Some X
  else None.

(** [trans_freq] in Hz: 24.150e9, 34.7e9 and 10.525e9. *)
Definition carrier (b : Band) : Z :=
  match b with
  | K => 24150000000
  | Ka => 34700000000
  | X => 10525000000
  end.

Definition calc_frequency (self : MainWindow) (velocity : float) : option float :=
  let c := Float.of_Z 299792458 in
  match band_of self with
  | Some b =>
      let trans_freq := Float.of_Z (carrier b) in
      Some ((Float.of_Z 2 * trans_freq * velocity) / c)%float
  | None => None
  end.

(** The three conversions inside the [try] of [create_sine], in order. *)
Definition convert (speed_units duration amplitude : pyobj)
  : py (float * float * float) :=
  s <- py_float speed_units ;;
  d <- py_float duration ;;
  a <- py_float amplitude ;;
  Ret (s, d, a).

Definition phase_of (dir : direction) : option float :=
  match dir with
  | Some true => Some (pi / Float.of_Z 2)%float
  | Some false => Some (Float.of_Z (-1) * pi / Float.of_Z 2)%float
  | None => None
  end.

(** The unit conversion of [create_sine]: km/h when the metric button is
    checked, miles per hour otherwise, to meters per second. *)
Definition meters_per_sec (self : MainWindow) (speed_units : float) : float :=
  if metric_button self
  then (speed_units * (Float.of_Z 1000 / Float.of_Z (60 ^ 2)))%float
  else (speed_units * (Float.dec 160934 2 / Float.of_Z (60 ^ 2)))%float.

Definition create_sine (self : MainWindow)
    (speed_units : pyobj) (dir : direction) (duration amplitude : pyobj)
  : py sine :=
  match phase_of dir with
  | None => Ret (Message DIR_ERROR)
  | Some phase_angle =>
    match convert speed_units duration amplitude with
    | Raise ValueError => Ret (Message CONVERT_ERROR)
    | Raise e => Raise e
    | Ret (speed_units, duration, amplitude) =>
      let frequency_sample := FREQUENCY_SAMPLE in
      let meters_per_sec := meters_per_sec self speed_units in
      match calc_frequency self meters_per_sec with
      | None => Ret (Message TRANSMIT_FREQ_ERROR)
      | Some frequency =>
        stop <- py_int (Float.round (duration * frequency_sample) + Float.of_Z 1)%float ;;
        let n_list := map Float.of_Z (arange1 stop) in
        let ch_1_data :=
          map (fun n => cos (Float.of_Z 2 * pi * frequency * n / frequency_sample)%float)
              n_list in
        let ch_2_data :=
          map (fun n => (Float.dec 19 1 *
                         cos ((Float.of_Z 2 * pi * frequency * n / frequency_sample)
                              - phase_angle))%float)
              n_list in
        let channels := transpose2 ch_1_data ch_2_data in
        let channels := scale channels amplitude in
        Ret (Channels channels)
      end
    end
  end.

(** [create_sine] on the entries of a vehicle. *)
Definition synth (self : MainWindow) (duration : pyobj) (v : vehicle) : py sine :=
  let '(speed, dir, amp) := v in
  create_sine self speed dir duration amp.

(** The first loop of the advanced branch of [run]: the vehicles whose
    speed, direction and amplitude are all given.  The test is evaluated
    left to right and stops at the first part that fails, as [and] does. *)
Fixpoint collect (speed_list : list pyobj) (i : nat)
    (direct_list : list direction) (amp_list : list pyobj) : py (list vehicle) :=
  match speed_list with
  | [] => Ret []
  | speed :: rest =>
      keep <-
        (if specified speed then
           match nth_error direct_list i with
           | None => Raise IndexError
           | Some None => Ret None
           | Some (Some d) =>
               match nth_error amp_list i with
               | None => Raise IndexError
               | Some amp =>
                   Ret (if specified amp then Some (speed, Some d, amp) else None)
               end
           end
         else Ret None) ;;
      others <- collect rest (S i) direct_list amp_list ;;
      Ret (match keep with Some v => v :: others | None => others end)
  end.

(** The second loop: one [create_sine] per retained vehicle, left at the
    first error text.  The events of the loop come with its end. *)
Fixpoint synthesize (self : MainWindow) (duration : pyobj)
    (vehicle_data : list vehicle) (sine_wave_data : list ndarray)
  : list event * loop_end :=
  match vehicle_data with
  | [] => ([], Completed sine_wave_data)
  | (speed, dir, amp) :: rest =>
      let call := CreateSine speed dir duration amp in
      match create_sine self speed dir duration amp with
      | Raise e => ([call], Uncaught e)
      | Ret (Message text) => ([call; ErrorWindow text], Broke)
      | Ret (Channels channels) =>
          let (events, ending) :=
            synthesize self duration rest (sine_wave_data ++ [channels]) in
          (call :: events, ending)
      end
  end.

(** [main_channel += sine_wave_data[i]] for the remaining arrays. *)
Fixpoint mix (main_channel : ndarray) (others : list ndarray) : py ndarray :=
  match others with
  | [] => Ret main_channel
  | b :: rest => m <- iadd main_channel b ;; mix m rest
  end.

(** The events of a run and the exception that ended it, if any. *)
Definition outcome : Type := list event * option exn.

Definition scale_and_play (events : list event) (channels : ndarray) : outcome :=
  match normalize channels with
  | Raise e => (events, Some e)
  | Ret channels => (events ++ [Play channels], None)
  end.

Definition run_simple (self : MainWindow) : outcome :=
  let speed := Simple.get_speed (simple_win self) in
  let duration := Simple.get_duration (simple_win self) in
  let dir := Simple.get_direct (simple_win self) in
  let call := CreateSine speed dir duration (PyInt 1) in
  match create_sine self speed dir duration (PyInt 1) with
  | Raise e => ([call], Some e)
  | Ret (Message text) => ([call; ErrorWindow text], None)
  | Ret (Channels channels) => scale_and_play [call] channels
  end.

(** The advanced branch from [vehicle_data] on. *)
Definition run_vehicles (self : MainWindow) (duration : pyobj)
    (vehicle_data : list vehicle) : outcome :=
  match synthesize self duration vehicle_data [] with
  | (events, Uncaught e) => (events, Some e)
  | (events, Broke) => (events, None)
  | (events, Completed sine_wave_data) =>
      match sine_wave_data with
      | [] => (events ++ [ErrorWindow DATA_ERROR], None)
      | first :: others =>
          match mix first others with
          | Raise e => (events, Some e)
          | Ret main_channel => scale_and_play events main_channel
          end
      end
  end.

(** The advanced branch from the three lists and the duration on. *)
Definition run_lists (self : MainWindow) (duration : pyobj)
    (speed_list : list pyobj) (direct_list : list direction)
    (amp_list : list pyobj) : outcome :=
  match collect speed_list 0 direct_list amp_list with
  | Raise e => ([], Some e)
  | Ret vehicle_data => run_vehicles self duration vehicle_data
  end.

Definition run_advanced (self : MainWindow) : outcome :=
  let speed_list := Advanced.get_speed (advanced_win self) in
  let direct_list := Advanced.get_direction (advanced_win self) in
  let amp_list := Advanced.get_amplitude (advanced_win self) in
  let duration := Advanced.get_duration (advanced_win self) in
  run_lists self duration speed_list direct_list amp_list.

Definition run (self : MainWindow) : outcome :=
  if simple_shown self then run_simple self else run_advanced self.

End Engine.

(** ** Quantities the statements below speak of *)

(** [round(duration * 44100)], the number N of the sample indices 1..N. *)
Definition sample_count (d : Qc) : Z := Float.round_half_away (d * Float.qz 44100)%Qc.

(** The argument of the cosine at sample [n]: [2 pi f n / 44100]. *)
Definition angle (frequency n : float) : float :=
  (Float.of_Z 2 * pi * frequency * n / Float.of_Z 44100)%float.

(** The array of finite samples with the given rows, and its samples in
    row-major order. *)
Definition of_rationals (rows : list (Qc * Qc)) : ndarray :=
  map (fun r => (Fin (fst r), Fin (snd r))) rows.

Definition samples (rows : list (Qc * Qc)) : list Qc :=
  flat_map (fun r => [fst r; snd r]) rows.

Definition Qcmax (a b : Qc) : Qc :=
  match Qccompare a b with Lt => b | _ => a end.

(** The [create_sine] call [run] makes for a vehicle. *)
Definition call (duration : pyobj) (v : vehicle) : event :=
  let '(speed, dir, amp) := v in CreateSine speed dir duration amp.

(** A vehicle is complete when its speed and its amplitude are neither
    [None] nor the empty text and its direction is not [None]. *)
Definition complete (v : vehicle) : bool :=
  let '(speed, dir, amp) := v in
  specified speed
  && match dir with Some _ => true | None => false end
  && specified amp.

(** The vehicles of the three lists, position by position. *)
Definition vehicles (speed_list : list pyobj) (direct_list : list direction)
    (amp_list : list pyobj) : list vehicle :=
  combine (combine speed_list direct_list) amp_list.


(** An event that is a [create_sine] call. *)
Definition is_call (e : event) : Prop :=
  match e with CreateSine _ _ _ _ => True | _ => False end.

(** An event that ends a run: a dialog or a playback. *)
Definition is_final (e : event) : Prop :=
  match e with CreateSine _ _ _ _ => False | _ => True end.

(** ** The error dialog: [create_error_window]

    The texts of the labels the dialog shows, top to bottom: the error
    string followed by a colon, then the message for it. *)

Definition create_error_window (error_string : string) : list string :=
  let error := (error_string ++ ": ")%string in
  error ::
  (if String.eqb error_string "DIR ERROR" then
     ["Direction for vehicle not specified"%string]
   else if String.eqb error_string "CONVERT ERROR" then
     ["Invalid data for speed, duration,"%string; "and/or amplitude"%string]
   else if String.eqb error_string "TRANSMIT FREQ ERROR" then
     ["No transmit frequency was specified"%string]
   else if String.eqb error_string "DATA ERROR" then
     ["Invalid and/or no data was specifed"%string; "for the vehicles"%string]
   else
     ["An error occured"%string]).

(** ** Concrete readings of the two parameters, for the examples

    [float_of_decimal] reads the plain decimal texts (an optional sign,
    digits, an optional point and more digits) and the texts [inf] and
    [nan] with an optional sign; Python's [float()] accepts each of these
    with that value (a decimal rounded to the nearest double).  It rejects
    every other text, among them the empty text and [abc], which Python
    rejects too; it also rejects exponents and surrounding blanks, which
    Python accepts, so it is used at concrete texts only. *)

Module Examples.

Definition digit_of (c : Ascii.ascii) : option Z :=
  let n := Ascii.nat_of_ascii c in
  if (48 <=? n)%nat && (n <=? 57)%nat then Some (Z.of_nat (n - 48)) else None.

Fixpoint read_digits (s : string) (acc : Z) (count : nat) : Z * nat * string :=
  match s with
  | String c rest =>
      match digit_of c with
      | Some d => read_digits rest (10 * acc + d) (S count)
      | None => (acc, count, s)
      end
  | EmptyString => (acc, count, s)
  end.

Definition unsigned_decimal (s : string) : option Qc :=
  let '(i, ni, rest) := read_digits s 0 0%nat in
  match rest with
  | EmptyString => if (ni =? 0)%nat then None else Some (Q2Qc (inject_Z i))
  | String "."%char rest =>
      let '(m, nf, rest) := read_digits rest i 0%nat in
      match rest with
      | EmptyString =>
          if (ni + nf =? 0)%nat then None
          else Some (Q2Qc (Qmake m (Z.to_pos (10 ^ Z.of_nat nf))))
      | _ => None
      end
  | _ => None
  end.

Definition unsigned_float (s : string) : option float :=
  if String.eqb s "inf" then Some PInf
  else if String.eqb s "nan" then Some NaN
  else option_map Fin (unsigned_decimal s).

Definition float_of_decimal (s : string) : option float :=
  match s with
  | String "-"%char rest => option_map Float.opp (unsigned_float rest)
  | String "+"%char rest => unsigned_float rest
  | _ => unsigned_float s
  end.

(** A polynomial stand-in for the cosine: [1 - x^2/2]. *)
Definition cos_poly (x : float) : float :=
  (Float.one - x * x / Float.of_Z 2)%float.

Definition window (metric k ka x : bool) : MainWindow :=
  {| simple_win := {| sw_speed_entry := PyStr ""; sw_dur_entry := PyStr "";
                      appro_rad := false; recede_rad := false |};
     advanced_win := {| aw_dur_entry := PyStr ""; speed_entries := [];
                        appr_buttons := []; amp_entries := [] |};
     simple_shown := true;
     metric_button := metric;
     kband_rad := k; kaband_rad := ka; xband_rad := x |}.

(** The advanced window showing, K band, miles per hour, with the given
    duration text and one (speed, check button, amplitude) per vehicle. *)
Definition advanced (duration : string) (rows : list (string * bool * string))
  : MainWindow :=
  {| simple_win := {| sw_speed_entry := PyStr ""; sw_dur_entry := PyStr "";
                      appro_rad := false; recede_rad := false |};
     advanced_win :=
       {| aw_dur_entry := PyStr duration;
          speed_entries := map (fun r => PyStr (fst (fst r))) rows;
          appr_buttons := map (fun r => snd (fst r)) rows;
          amp_entries := map (fun r => PyStr (snd r)) rows |};
     simple_shown := false;
     metric_button := false;
     kband_rad := true; kaband_rad := false; xband_rad := false |}.

(** The simple window showing, K band, miles per hour. *)
Definition simple (speed duration : string) (appro recede : bool) : MainWindow :=
  {| simple_win := {| sw_speed_entry := PyStr speed; sw_dur_entry := PyStr duration;
                      appro_rad := appro; recede_rad := recede |};
     advanced_win := Advanced.init 3;
     simple_shown := true;
     metric_button := false;
     kband_rad := true; kaband_rad := false; xband_rad := false |}.

(** Miles per hour and the K band. *)
Definition k_band : MainWindow := window false true false false.

(** Three vehicles, the second with the speed text [abc]. *)
Definition three : MainWindow :=
  advanced "0.0001"
    [("60", false, "1"); ("abc", false, "1"); ("30", true, "2")]%string.

End Examples.


(** * The synthesis on doubles

    The arithmetic of [calc_frequency] and [create_sine] once more, this
    time on IEEE 754 binary64 numbers as Python and numpy compute it: every
    operation rounds to the nearest double (ties to even), overflows to an
    infinity and underflows to a subnormal or a signed zero.  The numbers
    are the [spec_float] of the standard library at precision 53 and
    maximal exponent 1024, with its [SFmul], [SFdiv] and [SFadd].  The
    control flow is the one of [create_sine] above. *)

Module Double.

Definition double : Type := spec_float.

Definition prec : Z := 53.
Definition emax : Z := 1024.

Definition mul : double -> double -> double := SFmul prec emax.
Definition div : double -> double -> double := SFdiv prec emax.
Definition add : double -> double -> double := SFadd prec emax.
Definition sub : double -> double -> double := SFsub prec emax.
Definition opp : double -> double := SFopp.

(** The double nearest to an integer: [float(z)]; exact up to 2^53. *)
Definition of_Z (z : Z) : double := binary_normalize prec emax z 0 false.

(** The double of a decimal literal [m * 10^-k] with [m] and [10^k] below
    2^53, as [1609.34] or [1.9]: the correctly rounded quotient. *)
Definition dec (m : Z) (k : Z) : double := div (of_Z m) (of_Z (10 ^ k)).

Definition one : double := of_Z 1.

(** [numpy.pi], the double 3.141592653589793 = 7074237752028440 * 2^-51. *)
Definition pi : double := S754_finite false 7074237752028440 (-51).

Definition FREQUENCY_SAMPLE : double := of_Z 44100.

(** The integer nearest to [m * 2^e], a half away from zero. *)
Definition nearest (m : positive) (e : Z) : Z :=
  if 0 <=? e then Zpos m * 2 ^ e
  else
    let d := 2 ^ (- e) in
    if d <=? 2 * (Zpos m mod d) then Zpos m / d + 1 else Zpos m / d.

(** Python 2's [round(x)]: the nearest integer, a half away from zero, as
    a double again (with the sign of [x] when the result is zero).  A
    double with no fractional bit is returned as it is. *)
Definition round (x : double) : double :=
  match x with
  | S754_finite s m e =>
      if 0 <=? e then x
      else binary_normalize prec emax (cond_Zopp s (nearest m e)) 0 s
  | _ => x
  end.

(** The integer a finite double is truncated to, toward zero. *)
Definition trunc (s : bool) (m : positive) (e : Z) : Z :=
  cond_Zopp s (if 0 <=? e then Zpos m * 2 ^ e else Zpos m / 2 ^ (- e)).

(** Python's [int(x)] on a float. *)
Definition py_int (x : double) : py Z :=
  match x with
  | S754_zero _ => Ret 0
  | S754_finite s m e => Ret (trunc s m e)
  | S754_nan => Raise ValueError
  | S754_infinity _ => Raise OverflowError
  end.

(** The sample array, one row (left, right) per sample. *)
Definition ndarray : Type := list (double * double).

Inductive sine : Type :=
| Channels (channels : ndarray)
| Message (text : string).

(** [channels * amplitude] *)
Definition scale (channels : ndarray) (amplitude : double) : ndarray :=
  map (fun row => (mul (fst row) amplitude, mul (snd row) amplitude)) channels.

Section Engine.

(** Python's [float(s)] on a text: [None] when it raises ValueError. *)
Variable float_of_str : string -> option double.

(** [numpy.cos] on one element. *)
Variable cos : double -> double.

Definition py_float (x : pyobj) : py double :=
  match x with
  | PyNone => Raise TypeError
  | PyStr s => match float_of_str s with
               | Some v => Ret v
               | None => Raise ValueError
               end
  | PyInt z => match of_Z z with
               | S754_infinity _ => Raise OverflowError
               | v => Ret v
               end
  end.

Definition calc_frequency (self : MainWindow) (velocity : double) : option double :=
  let c := of_Z 299792458 in
  match band_of self with
  | Some b =>
      let trans_freq := of_Z (carrier b) in
      Some (div (mul (mul (of_Z 2) trans_freq) velocity) c)
  | None => None
  end.

Definition convert (speed_units duration amplitude : pyobj)
  : py (double * double * double) :=
  s <- py_float speed_units ;;
  d <- py_float duration ;;
  a <- py_float amplitude ;;
  Ret (s, d, a).

Definition phase_of (dir : direction) : option double :=
  match dir with
  | Some true => Some (div pi (of_Z 2))
  | Some false => Some (div (mul (of_Z (-1)) pi) (of_Z 2))
  | None => None
  end.

Definition meters_per_sec (self : MainWindow) (speed_units : double) : double :=
  if metric_button self
  then mul speed_units (div (of_Z 1000) (of_Z (60 ^ 2)))
  else mul speed_units (div (dec 160934 2) (of_Z (60 ^ 2))).

(** [2 * numpy.pi * frequency * n / frequency_sample], left to right. *)
Definition angle (frequency n : double) : double :=
  div (mul (mul (mul (of_Z 2) pi) frequency) n) FREQUENCY_SAMPLE.

Definition create_sine (self : MainWindow)
    (speed_units : pyobj) (dir : direction) (duration amplitude : pyobj)
  : py sine :=
  match phase_of dir with
  | None => Ret (Message DIR_ERROR)
  | Some phase_angle =>
    match convert speed_units duration amplitude with
    | Raise ValueError => Ret (Message CONVERT_ERROR)
    | Raise e => Raise e
    | Ret (speed_units, duration, amplitude) =>
      let frequency_sample := FREQUENCY_SAMPLE in
      let meters_per_sec := meters_per_sec self speed_units in
      match calc_frequency self meters_per_sec with
      | None => Ret (Message TRANSMIT_FREQ_ERROR)
      | Some frequency =>
        stop <- py_int (add (round (mul duration frequency_sample)) (of_Z 1)) ;;
        let n_list := map of_Z (arange1 stop) in
        let ch_1_data := map (fun n => cos (angle frequency n)) n_list in
        let ch_2_data :=
          map (fun n => mul (dec 19 1) (cos (sub (angle frequency n) phase_angle)))
              n_list in
        let channels := combine ch_1_data ch_2_data in
        let channels := scale channels amplitude in
        Ret (Channels channels)
      end
    end
  end.

End Engine.

(** The integer value of [round(x)] for a finite [x]. *)
Definition rounded (x : double) : option Z :=
  match x with
  | S754_zero _ => Some 0
  | S754_finite s m e => Some (cond_Zopp s (nearest m e))
  | _ => None
  end.

(** A double with the sign bit set that is not nan: a negative number,
    -0.0 or -inf. *)
Definition sign_bit (x : double) : bool :=
  match x with
  | S754_zero s | S754_infinity s | S754_finite s _ _ => s
  | S754_nan => false
  end.

(** [x * 2^j] on positive numbers, by appending [j] zero bits. *)
Definition shl (x : positive) (j : nat) : positive := Nat.iter j xO x.

(** The double of sign [s] and magnitude [x], for [x] below 2^53: the
    mantissa filled up to 53 bits. *)
Definition canon (s : bool) (x : positive) : double :=
  S754_finite s (shl x (Z.to_nat (53 - Zpos (digits2_pos x))))
              (Zpos (digits2_pos x) - 53).

(** A reading of [float()] for the examples: the plain decimal texts with
    an optional sign (at most 15 digits, so that the quotient of two exact
    integers is the nearest double), and the texts [inf] and [nan]. *)
Definition unsigned_float (s : string) : option double :=
  if String.eqb s "inf" then Some (S754_infinity false)
  else if String.eqb s "nan" then Some S754_nan
  else
    let '(i, ni, rest) := Examples.read_digits s 0 0%nat in
    match rest with
    | EmptyString => if (ni =? 0)%nat then None else Some (of_Z i)
    | String "."%char rest =>
        let '(m, nf, rest) := Examples.read_digits rest i 0%nat in
        match rest with
        | EmptyString =>
            if (ni + nf =? 0)%nat then None else Some (dec m (Z.of_nat nf))
        | _ => None
        end
    | _ => None
    end.

Definition float_of_decimal (s : string) : option double :=
  match s with
  | String "-"%char rest => option_map opp (unsigned_float rest)
  | String "+"%char rest => unsigned_float rest
  | _ => unsigned_float s
  end.

(** A stand-in for the cosine: [1 - x^2/2] in double arithmetic. *)
Definition cos_poly (x : double) : double :=
  sub one (div (mul x x) (of_Z 2)).

(** What a call of [create_sine] gives, up to the samples: the number of
    rows of the array, the error text, or the exception. *)
Definition shape (result : py sine) : py (nat + string) :=
  match result with
  | Ret (Channels channels) => Ret (inl (List.length channels))
  | Ret (Message text) => Ret (inr text)
  | Raise e => Raise e
  end.

(** The decimal text of [10^n]. *)
Definition power_of_ten (n : nat) : string :=
  String "1"%char (Nat.iter n (String "0"%char) EmptyString).

End Double.

(** * Properties *)

(** ** Arithmetic of the float model *)

Module FloatFacts.

Import Float.

Lemma Qc_of_Z_inj (a b : Z) : Q2Qc (inject_Z a) = Q2Qc (inject_Z b) -> a = b.
Proof.
  intro H. apply Q2Qc_eq_iff in H.
  unfold Qeq in H. simpl in H. lia.
Qed.

Lemma sgn_Eq (q : Qc) : sgn q = Eq <-> q = 0%Qc.
Proof. unfold sgn. symmetry. apply Qceq_alt. Qed.



Lemma mul_fin (a b : Qc) : mul (Fin a) (Fin b) = Fin (a * b)%Qc.
Proof. reflexivity. Qed.

Lemma div_fin (a b : Qc) : b <> 0%Qc -> div (Fin a) (Fin b) = Fin (a / b)%Qc.
Proof.
  intro Hb. unfold div.
  destruct (sgn b) eqn:E; try reflexivity.
  apply sgn_Eq in E. contradiction.
Qed.

Lemma div_zero_zero : div zero zero = NaN.
Proof. reflexivity. Qed.

Lemma qz_nonzero (z : Z) : z <> 0%Z -> qz z <> 0%Qc.
Proof. intros Hz H. apply Hz. now apply Qc_of_Z_inj. Qed.


Lemma Qcmult_Q (a b : Qc) : ((a * b)%Qc : Q) == (a : Q) * (b : Q).
Proof. apply Qred_correct. Qed.

Lemma Qcplus_Q (a b : Qc) : ((a + b)%Qc : Q) == (a : Q) + (b : Q).
Proof. apply Qred_correct. Qed.

Lemma Qcopp_Q (a : Qc) : ((- a)%Qc : Q) == - (a : Q).
Proof. apply Qred_correct. Qed.

Lemma Qc0_Q : ((0%Qc) : Q) = 0%Q.
Proof. reflexivity. Qed.

Lemma qz_Q (z : Z) : (qz z : Q) == inject_Z z.
Proof. apply Qred_correct. Qed.

Ltac to_Q :=
  unfold Qclt, Qcle in *;
  rewrite ?Qcmult_Q, ?Qcplus_Q, ?Qcopp_Q, ?Qc0_Q, ?qz_Q in *.

Lemma qz_add (a b : Z) : (qz a + qz b)%Qc = qz (a + b).
Proof.
  apply Qc_is_canon. to_Q. now rewrite inject_Z_plus.
Qed.

Lemma qz_this (z : Z) : this (qz z) = inject_Z z.
Proof.
  change (this (qz z)) with (Qred (inject_Z z)).
  apply Qred_identity. simpl. apply Z.gcd_1_r.
Qed.

Lemma trunc_qz (z : Z) : trunc (qz z) = z.
Proof. unfold trunc. rewrite qz_this. simpl. apply Z.quot_1_r. Qed.

End FloatFacts.

(** ** The Doppler equation *)

Section Doppler.

Import Float FloatFacts.

Lemma calc_frequency_selected (self : MainWindow) (b : Band) (v : float) :
  band_of self = Some b ->
  calc_frequency self v = Some (of_Z 2 * of_Z (carrier b) * v / of_Z 299792458)%float.
Proof. intro H. unfold calc_frequency. now rewrite H. Qed.

End Doppler.

(** ** Arrays *)

Section Arrays.

Lemma arange1_length (stop : Z) :
  List.length (arange1 stop) = Z.to_nat (stop - 1).
Proof. unfold arange1. now rewrite length_map, length_seq. Qed.

Lemma arange1_nth (stop i : Z) :
  1 <= i < stop -> nth_error (arange1 stop) (Z.to_nat (i - 1)) = Some i.
Proof.
  intro H. unfold arange1. rewrite nth_error_map, nth_error_seq.
  destruct (Nat.ltb_spec (Z.to_nat (i - 1)) (Z.to_nat (stop - 1))) as [_|Hge];
    [|lia].
  simpl. f_equal. lia.
Qed.

Lemma transpose2_scale_length {A : Type} (f g : A -> float) (l : list A) (a : float) :
  List.length (scale (transpose2 (map f l) (map g l)) a) = List.length l.
Proof.
  unfold scale, transpose2.
  rewrite length_map, length_combine, !length_map. apply Nat.min_id.
Qed.

Lemma transpose2_scale_nth {A : Type} (f g : A -> float) (l : list A) (a : float) (k : nat) :
  nth_error (scale (transpose2 (map f l) (map g l)) a) k
  = option_map (fun n => (f n * a, g n * a)%float) (nth_error l k).
Proof.
  revert k. induction l as [|x l IH]; intros [|k]; simpl; try reflexivity.
  apply IH.
Qed.

End Arrays.

(** ** Synthesis of one vehicle: [create_sine] *)

Section Synthesis.

Import Float FloatFacts.

Variable float_of_str : string -> option float.
Variable cos : float -> float.

Lemma stop_value (d : Qc) :
  py_int (round (Fin d * FREQUENCY_SAMPLE) + of_Z 1)%float
  = Ret (sample_count d + 1).
Proof.
  unfold FREQUENCY_SAMPLE, of_Z. rewrite mul_fin.
  unfold round, of_Z, add, py_int.
  now rewrite qz_add, trunc_qz.
Qed.

Lemma phase_receding :
  (of_Z (-1) * pi / of_Z 2)%float = opp (pi / of_Z 2)%float.
Proof.
  assert (H2 : qz 2 <> 0%Qc) by now apply qz_nonzero.
  unfold of_Z, pi. rewrite mul_fin.
  rewrite (div_fin _ _ H2), (div_fin _ _ H2).
  unfold opp. apply f_equal. apply Qc_is_canon. reflexivity.
Qed.

Lemma create_sine_channels (self : MainWindow) (approaching : bool)
    (speed duration amplitude : pyobj) (s a f phase : float) (d : Qc) :
  py_float float_of_str speed = Ret s ->
  py_float float_of_str duration = Ret (Fin d) ->
  py_float float_of_str amplitude = Ret a ->
  calc_frequency self (meters_per_sec self s) = Some f ->
  phase_of (Some approaching) = Some phase ->
  create_sine float_of_str cos self speed (Some approaching) duration amplitude
  = Ret (Channels
           (scale
              (transpose2
                 (map (fun n => cos (angle f n))
                      (map of_Z (arange1 (sample_count d + 1))))
                 (map (fun n => (dec 19 1 * cos (angle f n - phase))%float)
                      (map of_Z (arange1 (sample_count d + 1)))))
              a)).
Proof.
  intros Hs Hd Ha Hf Hp.
  unfold create_sine, convert. rewrite Hp, Hs, Hd, Ha.
  cbn [bind]. rewrite Hf, stop_value. reflexivity.
Qed.

Lemma phase_of_direction (approaching : bool) :
  phase_of (Some approaching)
  = Some (if approaching then pi / of_Z 2 else opp (pi / of_Z 2))%float.
Proof.
  destruct approaching; [reflexivity|].
  exact (f_equal Some phase_receding).
Qed.

(** The error texts [create_sine] can return for a given direction. *)
Lemma create_sine_message (self : MainWindow) (approaching : bool)
    (speed duration amplitude : pyobj) (text : string) :
  create_sine float_of_str cos self speed (Some approaching) duration amplitude
  = Ret (Message text) ->
  (text = CONVERT_ERROR
   /\ convert float_of_str speed duration amplitude = Raise ValueError)
  \/ (text = TRANSMIT_FREQ_ERROR
      /\ exists v, convert float_of_str speed duration amplitude = Ret v).
Proof.
  unfold create_sine. rewrite phase_of_direction.
  destruct (convert float_of_str speed duration amplitude) as [[[s d] a]|e].
  - destruct (calc_frequency self (meters_per_sec self s)).
    + destruct (py_int _); cbn [bind]; discriminate.
    + intro H. injection H as <-. right. split; [reflexivity|]. now eexists.
  - destruct e; try discriminate.
    intro H. injection H as <-. now left.
Qed.

End Synthesis.

(** ** The scaling step of [run] *)

Section Normalization.

Import Float FloatFacts.

Lemma is_zero_eq (x : float) : is_zero x = true -> x = zero.
Proof.
  destruct x as [q| | |]; simpl; try discriminate.
  destruct (Qccompare q 0%Qc) eqn:E; try discriminate.
  intros _. apply Qceq_alt in E. now subst.
Qed.

Lemma zero_rows (channels : ndarray) :
  Forall (fun row => is_zero (fst row) = true /\ is_zero (snd row) = true) channels ->
  channels = map (fun _ => (zero, zero)) channels.
Proof.
  induction 1 as [|[l r] rest [Hl Hr] _ IH]; [reflexivity|].
  simpl in *. rewrite <- IH.
  now rewrite (is_zero_eq _ Hl), (is_zero_eq _ Hr).
Qed.

Lemma abs_zero : abs zero = zero.
Proof. unfold zero, of_Z, abs. f_equal. now apply Qc_is_canon. Qed.

Lemma fold_max_zeros (l : list float) :
  Forall (fun x => x = zero) l -> fold_left max l zero = zero.
Proof.
  induction 1 as [|x l -> _ IH]; [reflexivity|]. exact IH.
Qed.

Lemma amax_zeros (channels : ndarray) :
  channels <> [] ->
  amax (np_abs (map (fun _ => (zero, zero)) channels)) = Ret zero.
Proof.
  destruct channels as [|row rest]; [congruence|]. intros _.
  unfold amax. cbn [map np_abs flatten flat_map fst snd app].
  rewrite abs_zero. cbn [fold_left].
  change (max zero zero) with zero.
  f_equal. apply fold_max_zeros.
  induction rest as [|r rest IH]; [constructor|].
  cbn [map flat_map fst snd app]. rewrite abs_zero.
  constructor; [reflexivity|]. constructor; [reflexivity|exact IH].
Qed.

(** On the array with no row [numpy.amax] raises. *)
Lemma normalize_empty : normalize [] = Raise ValueError.
Proof. reflexivity. Qed.

(** C1, the claim as stated fails: the one-row array of zeros is not
    returned unchanged; both samples come back as nan. *)
Lemma normalize_zero_row_changes :
  is_zero zero = true
  /\ normalize [(zero, zero)] = Ret [(NaN, NaN)]
  /\ normalize [(zero, zero)] <> Ret [(zero, zero)].
Proof.
  split; [reflexivity|]. split; [reflexivity|].
  intro H. discriminate H.
Qed.

(** C1, amended: the scaling step has no guard for a peak of 0.  For every
    array with at least one row whose samples are all zero the peak is 0,
    every sample is divided by it, and every sample of the result is nan
    (the array does not come back unchanged). *)
Theorem normalize_all_zero (channels : ndarray) :
  channels <> [] ->
  Forall (fun row => is_zero (fst row) = true /\ is_zero (snd row) = true) channels ->
  amax (np_abs channels) = Ret zero
  /\ normalize channels = Ret (divide channels zero)
  /\ normalize channels = Ret (map (fun _ => (NaN, NaN)) channels)
  /\ normalize channels <> Ret channels.
Proof.
  intros Hne Hz. pose proof (zero_rows _ Hz) as E.
  assert (Ha : amax (np_abs channels) = Ret zero).
  { rewrite E. now apply amax_zeros. }
  assert (Hd : divide channels zero = map (fun _ => (NaN, NaN)) channels).
  { rewrite E at 1. unfold divide. rewrite map_map.
    apply map_ext. intros _. reflexivity. }
  unfold normalize. rewrite Ha. cbn [bind]. rewrite Hd.
  repeat split.
  destruct channels as [|[l r] rest]; [congruence|].
  simpl. intro H. injection H as Hl _ _.
  inversion Hz as [|? ? [Hzl _] _]; subst. discriminate.
Qed.

Lemma max_fin (a b : Qc) : max (Fin a) (Fin b) = Fin (Qcmax a b).
Proof. unfold max, Qcmax. now destruct (Qccompare a b). Qed.

Lemma fold_max_fin (l : list Qc) (x : Qc) :
  fold_left max (map Fin l) (Fin x) = Fin (fold_left Qcmax l x).
Proof.
  revert x. induction l as [|y l IH]; intro x; [reflexivity|].
  cbn [map fold_left]. rewrite max_fin. apply IH.
Qed.

Lemma Qcmax_cases (a b : Qc) :
  (Qcmax a b = a /\ (b <= a)%Qc) \/ (Qcmax a b = b /\ (a <= b)%Qc).
Proof.
  unfold Qcmax. destruct (Qccompare a b) eqn:E.
  - apply Qceq_alt in E. subst. left. split; [reflexivity|apply Qcle_refl].
  - apply Qclt_alt in E. right. split; [reflexivity|now apply Qclt_le_weak].
  - apply Qcgt_alt in E. left. split; [reflexivity|now apply Qclt_le_weak].
Qed.

Lemma fold_Qcmax_spec (l : list Qc) (x : Qc) :
  In (fold_left Qcmax l x) (x :: l)
  /\ Forall (fun y => (y <= fold_left Qcmax l x)%Qc) (x :: l).
Proof.
  revert x. induction l as [|y l IH]; intro x.
  - split; [now left|]. constructor; [apply Qcle_refl|constructor].
  - cbn [fold_left]. destruct (IH (Qcmax x y)) as [Hin Hall].
    inversion Hall as [|? ? Hm Hl]; subst.
    destruct (Qcmax_cases x y) as [[E Hle]|[E Hle]]; rewrite E in *.
    + split.
      * destruct Hin as [<-|Hin]; [now left | right; now right].
      * constructor; [assumption|].
        constructor; [eapply Qcle_trans; eassumption | assumption].
    + split.
      * right. exact Hin.
      * constructor; [eapply Qcle_trans; eassumption|].
        constructor; assumption.
Qed.

Lemma fold_Qcmax_unique (l : list Qc) (x m : Qc) :
  In m (x :: l) -> Forall (fun y => (y <= m)%Qc) (x :: l) ->
  fold_left Qcmax l x = m.
Proof.
  intros Hin Hall. destruct (fold_Qcmax_spec l x) as [Hin' Hall'].
  rewrite Forall_forall in Hall, Hall'.
  apply Qcle_antisym; [now apply Hall | now apply Hall'].
Qed.

Lemma Qcinv_pos (p : Qc) : (0 < p)%Qc -> (0 < / p)%Qc.
Proof.
  unfold Qclt. intro H.
  change (this (/ p)%Qc) with (Qred (/ p)). rewrite Qred_correct.
  now apply Qinv_lt_0_compat.
Qed.

Lemma Qclt_neq (p : Qc) : (0 < p)%Qc -> p <> 0%Qc.
Proof. intros H E. subst. now apply (Qlt_irrefl 0). Qed.

Lemma Qcdiv_le_1 (x p : Qc) : (0 < p)%Qc -> (x <= p)%Qc -> (x / p <= 1)%Qc.
Proof.
  intros Hp Hx. unfold Qcdiv.
  rewrite <- (Qcmult_inv_r p) by now apply Qclt_neq.
  apply Qcmult_le_compat_r; [assumption|].
  apply Qclt_le_weak. now apply Qcinv_pos.
Qed.

Lemma Qcabs_div (x p : Qc) : (0 < p)%Qc -> Qcabs (x / p) = (Qcabs x / p)%Qc.
Proof.
  intro Hp. unfold Qcdiv. rewrite Qcabs_Qcmult. f_equal.
  apply Qcabs_pos. apply Qclt_le_weak. now apply Qcinv_pos.
Qed.

Lemma flatten_abs_rationals (rows : list (Qc * Qc)) :
  flatten (np_abs (of_rationals rows)) = map Fin (map Qcabs (samples rows)).
Proof.
  induction rows as [|r rows IH]; [reflexivity|].
  cbn [of_rationals np_abs flatten samples map flat_map fst snd app].
  do 2 f_equal. exact IH.
Qed.

Lemma divide_rationals (rows : list (Qc * Qc)) (p : Qc) :
  p <> 0%Qc ->
  divide (of_rationals rows) (Fin p)
  = of_rationals (map (fun r => (fst r / p, snd r / p)%Qc) rows).
Proof.
  intro Hp. unfold divide, of_rationals. rewrite !map_map.
  apply map_ext. intros [l r]. cbn [fst snd].
  now rewrite !(div_fin _ _ Hp).
Qed.

Lemma samples_divided (rows : list (Qc * Qc)) (p : Qc) :
  samples (map (fun r => (fst r / p, snd r / p)%Qc) rows)
  = map (fun x => (x / p)%Qc) (samples rows).
Proof.
  induction rows as [|r rows IH]; [reflexivity|].
  cbn [samples map flat_map fst snd app]. do 2 f_equal. exact IH.
Qed.

(** The peak of an array of finite samples that has a row. *)
Lemma amax_rationals (rows : list (Qc * Qc)) (m : Qc) :
  In m (map Qcabs (samples rows)) ->
  Forall (fun y => (y <= m)%Qc) (map Qcabs (samples rows)) ->
  amax (np_abs (of_rationals rows)) = Ret (Fin m).
Proof.
  intros Hin Hall. unfold amax. rewrite flatten_abs_rationals.
  destruct (map Qcabs (samples rows)) as [|x l] eqn:E; [contradiction|].
  cbn [map]. rewrite fold_max_fin. f_equal. f_equal.
  now apply fold_Qcmax_unique.
Qed.

Lemma Qcabs_pos_nonzero (x : Qc) : x <> 0%Qc -> (0 < Qcabs x)%Qc.
Proof.
  intro Hx. destruct (Qcle_lt_or_eq _ _ (Qcabs_nonneg x)) as [H|H]; [exact H|].
  exfalso. apply Hx. apply Qcabs_null. now symmetry.
Qed.

(** C4, the claim as stated fails: a row of infinite samples (what
    [create_sine] returns when the amplitude text is [inf]) is not zero,
    the peak of the array is +inf, every sample becomes inf/inf, and the
    largest absolute sample of the result is nan, not 1.0. *)
Lemma normalize_infinite_sample :
  is_zero PInf = false
  /\ amax (np_abs [(PInf, NInf)]) = Ret PInf
  /\ normalize [(PInf, NInf)] = Ret [(NaN, NaN)]
  /\ amax (np_abs [(NaN, NaN)]) = Ret NaN
  /\ @Ret float NaN <> Ret one.
Proof.
  repeat split; try reflexivity. discriminate.
Qed.

(** C4, amended: for every array of finite samples with at least one
    non-zero sample, the peak is the largest absolute sample over both
    channels (one peak for the whole array, positive, attained by a
    sample), every sample of both channels is divided by that one peak, so
    the ratio of the two samples of a row is kept, and the largest absolute
    sample of the result is exactly 1. *)
Theorem normalize_peak (rows : list (Qc * Qc)) :
  (exists x : Qc, In x (samples rows) /\ x <> 0%Qc) ->
  exists peak : Qc,
    (0 < peak)%Qc
    /\ In peak (map Qcabs (samples rows))
    /\ Forall (fun x => (Qcabs x <= peak)%Qc) (samples rows)
    /\ amax (np_abs (of_rationals rows)) = Ret (Fin peak)
    /\ normalize (of_rationals rows)
       = Ret (of_rationals (map (fun r => (fst r / peak, snd r / peak)%Qc) rows))
    /\ amax (np_abs (of_rationals
                       (map (fun r => (fst r / peak, snd r / peak)%Qc) rows)))
       = Ret (Fin 1%Qc)
    /\ Forall (fun r => (fst r / peak * snd r = snd r / peak * fst r)%Qc) rows.
Proof.
  intros [x [Hx Hx0]].
  assert (Hinx : In (Qcabs x) (map Qcabs (samples rows))) by now apply in_map.
  remember (map Qcabs (samples rows)) as L eqn:E.
  destruct L as [|y l]; [contradiction|].
  destruct (fold_Qcmax_spec l y) as [Hin Hall].
  remember (fold_left Qcmax l y) as peak eqn:Epeak. clear Epeak.
  rewrite E in *. clear E y l.
  assert (Hpos : (0 < peak)%Qc).
  { eapply Qclt_le_trans; [apply (Qcabs_pos_nonzero x Hx0)|].
    rewrite Forall_forall in Hall. now apply Hall. }
  assert (Hne : peak <> 0%Qc) by now apply Qclt_neq.
  assert (Hamax : amax (np_abs (of_rationals rows)) = Ret (Fin peak))
    by now apply amax_rationals.
  exists peak. split; [exact Hpos|]. split; [exact Hin|]. split.
  { rewrite Forall_map in Hall. exact Hall. }
  split; [exact Hamax|]. split.
  { unfold normalize. rewrite Hamax. cbn [bind]. now rewrite divide_rationals. }
  split.
  - apply amax_rationals; rewrite samples_divided, map_map.
    + apply in_map_iff in Hin. destruct Hin as [z [Hz Hzin]].
      apply in_map_iff. exists z. split; [|exact Hzin].
      rewrite Qcabs_div, Hz by exact Hpos.
      unfold Qcdiv. now apply Qcmult_inv_r.
    + rewrite Forall_map. rewrite Forall_map in Hall.
      eapply Forall_impl; [|exact Hall].
      intros z Hz. cbn beta in *. rewrite Qcabs_div by exact Hpos.
      now apply Qcdiv_le_1.
  - apply Forall_forall. intros r _. now field.
Qed.

End Normalization.

(** ** The runs *)

Section Runs.

Variable float_of_str : string -> option float.
Variable cos : float -> float.

(** The three ways the loop over the vehicles can end, with its events. *)
Lemma synthesize_cases (self : MainWindow) (duration : pyobj)
    (vehicle_data : list vehicle) (acc : list ndarray) :
  (exists data,
     synthesize float_of_str cos self duration vehicle_data acc
     = (map (call duration) vehicle_data, Completed data)
     /\ List.length data = (List.length acc + List.length vehicle_data)%nat
     /\ Forall (fun v => exists ch, synth float_of_str cos self duration v = Ret (Channels ch))
               vehicle_data)
  \/ (exists before v after text,
        vehicle_data = before ++ v :: after
        /\ Forall (fun v => exists ch, synth float_of_str cos self duration v = Ret (Channels ch))
                  before
        /\ synth float_of_str cos self duration v = Ret (Message text)
        /\ synthesize float_of_str cos self duration vehicle_data acc
           = (map (call duration) before ++ [call duration v; ErrorWindow text],
              Broke))
  \/ (exists before v after e,
        vehicle_data = before ++ v :: after
        /\ Forall (fun v => exists ch, synth float_of_str cos self duration v = Ret (Channels ch))
                  before
        /\ synth float_of_str cos self duration v = Raise e
        /\ synthesize float_of_str cos self duration vehicle_data acc
           = (map (call duration) before ++ [call duration v], Uncaught e)).
Proof.
  revert acc. induction vehicle_data as [|[[speed dir] amp] rest IH]; intro acc.
  - left. exists acc. cbn. split; [reflexivity|]. split; [lia|constructor].
  - cbn [synthesize].
    destruct (create_sine float_of_str cos self speed dir duration amp)
      as [[channels|text]|e] eqn:E.
    + destruct (IH (acc ++ [channels]))
        as [[data [H [Hlen Hall]]]
           |[[before [v [after [text [Hv [Hall [Hm H]]]]]]]
            |[before [v [after [e [Hv [Hall [Hm H]]]]]]]]];
        rewrite H.
      * left. exists data. split; [reflexivity|]. split.
        -- rewrite Hlen, length_app. cbn. lia.
        -- constructor; [now exists channels | exact Hall].
      * right. left. exists ((speed, dir, amp) :: before), v, after, text.
        rewrite Hv. repeat split; try assumption.
        constructor; [now exists channels | exact Hall].
      * right. right. exists ((speed, dir, amp) :: before), v, after, e.
        rewrite Hv. repeat split; try assumption.
        constructor; [now exists channels | exact Hall].
    + right. left. exists [], (speed, dir, amp), rest, text.
      repeat split; [constructor | exact E].
    + right. right. exists [], (speed, dir, amp), rest, e.
      repeat split; [constructor | exact E].
Qed.

Lemma synthesize_break (self : MainWindow) (duration : pyobj)
    (before after : list vehicle) (v : vehicle) (text : string) :
  Forall (fun v => exists ch, synth float_of_str cos self duration v = Ret (Channels ch)) before ->
  synth float_of_str cos self duration v = Ret (Message text) ->
  forall acc,
    synthesize float_of_str cos self duration (before ++ v :: after) acc
    = (map (call duration) before ++ [call duration v; ErrorWindow text], Broke).
Proof.
  intros Hall Hv. induction Hall as [|[[speed dir] amp] before [ch Hch] _ IH];
    intro acc.
  - destruct v as [[speed dir] amp]. cbn in *. now rewrite Hv.
  - cbn in *. rewrite Hch, IH. reflexivity.
Qed.

Lemma not_in_calls (duration : pyobj) (l : list vehicle) (e : event) :
  In e (map (call duration) l) ->
  exists speed dir amp,
    In (speed, dir, amp) l /\ e = CreateSine speed dir duration amp.
Proof.
  intro H. apply in_map_iff in H. destruct H as [[[speed dir] amp] [<- Hin]].
  now exists speed, dir, amp.
Qed.

(** The error texts of [create_sine]. *)
Lemma create_sine_texts (self : MainWindow) (speed : pyobj) (dir : direction)
    (duration amp : pyobj) (text : string) :
  create_sine float_of_str cos self speed dir duration amp = Ret (Message text) ->
  (dir = None /\ text = DIR_ERROR)
  \/ (dir <> None /\ (text = CONVERT_ERROR \/ text = TRANSMIT_FREQ_ERROR)).
Proof.
  destruct dir as [approaching|].
  - intro H. right. split; [discriminate|].
    apply create_sine_message in H. destruct H as [[H _]|[H _]]; tauto.
  - intro H. left. split; [reflexivity|]. now injection H as <-.
Qed.

(** The events of [scale_and_play] add at most a [Play]. *)
Lemma scale_and_play_events (events : list event) (channels : ndarray) (e : event) :
  In e (fst (scale_and_play events channels)) ->
  In e events \/ exists played, e = Play played.
Proof.
  unfold scale_and_play. destruct (normalize channels) as [played|x]; cbn.
  - rewrite in_app_iff. intros [H|[<-|[]]]; [now left|right; now eexists].
  - now left.
Qed.

(** Where the events of the advanced branch come from. *)
Lemma run_vehicles_events (self : MainWindow) (duration : pyobj)
    (vehicle_data : list vehicle) (e : event) :
  In e (fst (run_vehicles float_of_str cos self duration vehicle_data)) ->
  (exists speed dir amp,
     In (speed, dir, amp) vehicle_data /\ e = CreateSine speed dir duration amp)
  \/ (exists played, e = Play played)
  \/ (e = ErrorWindow DATA_ERROR /\ vehicle_data = [])
  \/ (exists v text,
        In v vehicle_data /\ synth float_of_str cos self duration v = Ret (Message text)
        /\ e = ErrorWindow text).
Proof.
  unfold run_vehicles.
  destruct (synthesize_cases self duration vehicle_data [])
    as [[data [H [Hlen _]]]
       |[[before [v [after [text [Hv [_ [Hm H]]]]]]]
        |[before [v [after [x [Hv [_ [_ H]]]]]]]]];
    rewrite H.
  - destruct data as [|first others].
    + destruct vehicle_data; [|discriminate Hlen]. cbn.
      intros [<-|[]]. right. right. left. now split.
    + assert (Hcalls : In e (map (call duration) vehicle_data) ->
                       exists speed dir amp,
                         In (speed, dir, amp) vehicle_data
                         /\ e = CreateSine speed dir duration amp)
        by apply not_in_calls.
      destruct (mix first others) as [main_channel|x]; cbn [fst].
      * intro Hin. apply scale_and_play_events in Hin.
        destruct Hin as [Hin|Hin]; [left; now apply Hcalls | right; now left].
      * intro Hin. left. now apply Hcalls.
  - cbn [fst]. rewrite in_app_iff. intros [Hin|[<-|[<-|[]]]].
    + left. apply not_in_calls in Hin.
      destruct Hin as [speed [dir [amp [Hin ->]]]].
      exists speed, dir, amp. split; [|reflexivity].
      rewrite Hv. apply in_or_app. now left.
    + left. destruct v as [[speed dir] amp]. exists speed, dir, amp.
      split; [|reflexivity]. rewrite Hv. apply in_or_app. right. now left.
    + right. right. right. exists v, text. repeat split; [|exact Hm].
      rewrite Hv. apply in_or_app. right. now left.
  - cbn [fst]. rewrite in_app_iff. intros [Hin|[<-|[]]].
    + left. apply not_in_calls in Hin.
      destruct Hin as [speed [dir [amp [Hin ->]]]].
      exists speed, dir, amp. split; [|reflexivity].
      rewrite Hv. apply in_or_app. now left.
    + left. destruct v as [[speed dir] amp]. exists speed, dir, amp.
      split; [|reflexivity]. rewrite Hv. apply in_or_app. right. now left.
Qed.

(** C6: in a run of the advanced window, when [create_sine] answers an
    error text for one of the retained vehicles (and has returned samples
    for the ones before it), the run consists of the [create_sine] calls
    up to that vehicle followed by the one error dialog with that text:
    no vehicle after it is synthesized, the arrays made so far are dropped
    and nothing is handed to [sounddevice.play]. *)
Theorem run_fail_fast (self : MainWindow) (before after : list vehicle)
    (v : vehicle) (text : string) :
  let duration := Advanced.get_duration (advanced_win self) in
  simple_shown self = false ->
  collect (Advanced.get_speed (advanced_win self)) 0
          (Advanced.get_direction (advanced_win self))
          (Advanced.get_amplitude (advanced_win self))
  = Ret (before ++ v :: after) ->
  Forall (fun v => exists ch, synth float_of_str cos self duration v = Ret (Channels ch)) before ->
  synth float_of_str cos self duration v = Ret (Message text) ->
  run float_of_str cos self
  = (map (call duration) before ++ [call duration v; ErrorWindow text], None)
  /\ (forall channels, ~ In (Play channels) (fst (run float_of_str cos self)))
  /\ (forall e, In e (fst (run float_of_str cos self)) ->
                e = ErrorWindow text \/ In e (map (call duration) (before ++ [v]))).
Proof.
  intros duration Hshown Hcollect Hbefore Hv.
  assert (Hrun : run float_of_str cos self
                 = (map (call duration) before ++ [call duration v; ErrorWindow text],
                    None)).
  { unfold run, run_advanced, run_lists. rewrite Hshown, Hcollect.
    unfold run_vehicles. fold duration.
    now rewrite (synthesize_break self duration before after v text Hbefore Hv). }
  rewrite Hrun. cbn [fst]. split; [reflexivity|]. split.
  - intros channels Hin. apply in_app_or in Hin.
    destruct Hin as [Hin|[Hin|[Hin|[]]]].
    + apply not_in_calls in Hin. destruct Hin as [? [? [? [_ Hin]]]]. discriminate.
    + destruct v as [[? ?] ?]. discriminate.
    + discriminate.
  - intros e Hin. apply in_app_or in Hin. rewrite map_app, in_app_iff.
    destruct Hin as [Hin|[<-|[<-|[]]]]; [right; now left | right; right; now left | now left].
Qed.

Lemma nth_error_skipn {A : Type} (l : list A) (i : nat) :
  (i < List.length l)%nat ->
  exists x, nth_error l i = Some x /\ skipn i l = x :: skipn (S i) l.
Proof.
  revert i. induction l as [|y l IH]; intros i Hi; [cbn in Hi; lia|].
  destruct i as [|i]; [now exists y|].
  destruct (IH i) as [x [H1 H2]]; [cbn in Hi; lia|].
  exists x. split; [exact H1 | exact H2].
Qed.

Lemma collect_from (speed_list : list pyobj) (i : nat)
    (direct_list : list direction) (amp_list : list pyobj) :
  List.length direct_list = (i + List.length speed_list)%nat ->
  List.length amp_list = (i + List.length speed_list)%nat ->
  collect speed_list i direct_list amp_list
  = Ret (filter complete
           (vehicles speed_list (skipn i direct_list) (skipn i amp_list))).
Proof.
  revert i. induction speed_list as [|speed rest IH]; intros i Hd Ha;
    [reflexivity|].
  cbn [List.length] in Hd, Ha.
  destruct (nth_error_skipn direct_list i) as [d [Hd1 Hd2]]; [lia|].
  destruct (nth_error_skipn amp_list i) as [a [Ha1 Ha2]]; [lia|].
  cbn [collect]. rewrite Hd1, Ha1, Hd2, Ha2, (IH (S i)) by lia.
  unfold vehicles. cbn [combine filter complete].
  destruct (specified speed), d as [d|], (specified a); reflexivity.
Qed.

Lemma init_one_per_vehicle (num_vehicles : nat) :
  Advanced.one_per_vehicle (Advanced.init num_vehicles).
Proof. unfold Advanced.one_per_vehicle. cbn. now rewrite !repeat_length. Qed.

(** The advanced branch of a window with one widget of each kind per
    vehicle is the run of its complete vehicles. *)
Lemma run_advanced_retained (self : MainWindow) :
  Advanced.one_per_vehicle (advanced_win self) ->
  run_advanced float_of_str cos self
  = run_vehicles float_of_str cos self
      (Advanced.get_duration (advanced_win self))
      (filter complete
         (vehicles (Advanced.get_speed (advanced_win self))
                   (Advanced.get_direction (advanced_win self))
                   (Advanced.get_amplitude (advanced_win self)))).
Proof.
  intros [Hb Ha]. unfold run_advanced, run_lists.
  rewrite collect_from; [reflexivity| |exact Ha].
  unfold Advanced.get_direction. rewrite length_map. exact Hb.
Qed.

(** C8: in the advanced branch every vehicle whose speed or amplitude is
    [None] or the empty text, or whose direction is [None], is left out,
    and leaving it out raises nothing and opens no dialog: the run is the
    run of the complete vehicles alone.  The run opens the DATA ERROR
    dialog exactly when no vehicle is complete. *)
Theorem run_drops_incomplete (self : MainWindow) (duration : pyobj)
    (speed_list : list pyobj) (direct_list : list direction)
    (amp_list : list pyobj) :
  List.length direct_list = List.length speed_list ->
  List.length amp_list = List.length speed_list ->
  let retained := filter complete (vehicles speed_list direct_list amp_list) in
  collect speed_list 0 direct_list amp_list = Ret retained
  /\ (forall v, In v retained
               <-> In v (vehicles speed_list direct_list amp_list)
                   /\ specified (fst (fst v)) = true
                   /\ snd (fst v) <> None
                   /\ specified (snd v) = true)
  /\ run_lists float_of_str cos self duration speed_list direct_list amp_list
     = run_vehicles float_of_str cos self duration retained
  /\ (In (ErrorWindow DATA_ERROR)
         (fst (run_lists float_of_str cos self duration
                 speed_list direct_list amp_list))
      <-> retained = [])
  /\ (retained = [] ->
      run_lists float_of_str cos self duration speed_list direct_list amp_list
      = ([ErrorWindow DATA_ERROR], None)).
Proof.
  intros Hd Ha retained.
  assert (Hc : collect speed_list 0 direct_list amp_list = Ret retained)
    by now apply collect_from.
  assert (Hr : run_lists float_of_str cos self duration speed_list direct_list amp_list
               = run_vehicles float_of_str cos self duration retained).
  { unfold run_lists. now rewrite Hc. }
  split; [exact Hc|]. split.
  { intros [[speed dir] amp]. unfold retained. rewrite filter_In.
    cbn [complete fst snd]. rewrite !andb_true_iff.
    destruct dir; intuition congruence. }
  split; [exact Hr|]. rewrite Hr. split.
  - split.
    + intro Hin. apply run_vehicles_events in Hin.
      destruct Hin as [[? [? [? [_ H]]]]|[[? H]|[[_ H]|[v [text [_ [Hm H]]]]]]];
        try discriminate; [exact H|].
      injection H as <-. destruct v as [[speed dir] amp].
      apply create_sine_texts in Hm.
      destruct Hm as [[_ Hm]|[_ [Hm|Hm]]]; discriminate.
    + intros ->. now left.
  - intros ->. reflexivity.
Qed.

Lemma collect_directions (speed_list : list pyobj) (i : nat)
    (direct_list : list direction) (amp_list : list pyobj)
    (vehicle_data : list vehicle) :
  collect speed_list i direct_list amp_list = Ret vehicle_data ->
  Forall (fun v => In (snd (fst v)) direct_list /\ snd (fst v) <> None)
         vehicle_data.
Proof.
  revert i vehicle_data.
  induction speed_list as [|speed rest IH]; intros i vehicle_data.
  - intro H. injection H as <-. constructor.
  - cbn [collect].
    destruct (collect rest (S i) direct_list amp_list) as [others|x] eqn:E.
    + specialize (IH _ _ E).
      destruct (specified speed); cbn [bind].
      * destruct (nth_error direct_list i) as [[d|]|] eqn:Ed; cbn [bind];
          try discriminate.
        -- destruct (nth_error amp_list i) as [amp|]; cbn [bind];
             try discriminate.
           destruct (specified amp); intro H; injection H as <-;
             [|exact IH].
           constructor; [|exact IH]. cbn [fst snd].
           split; [eapply nth_error_In; eassumption | discriminate].
        -- intro H. injection H as <-. exact IH.
      * intro H. injection H as <-. exact IH.
    + destruct (specified speed); cbn [bind]; [|discriminate].
      destruct (nth_error direct_list i) as [[d|]|]; cbn [bind];
        try discriminate.
      destruct (nth_error amp_list i); cbn [bind]; discriminate.
Qed.

(** C10: in the advanced window the direction of every vehicle is given.
    The check button of a vehicle is read as approaching ([True]) when
    unchecked and as receding ([False]) when checked, never as [None]; so
    every [create_sine] call of a run of the advanced window gets a
    direction, and such a run never opens the DIR ERROR dialog. *)
Theorem advanced_direction_specified (self : MainWindow) :
  Advanced.get_direction (advanced_win self)
  = map (fun checked : bool => Some (negb checked))
        (appr_buttons (advanced_win self))
  /\ ~ In None (Advanced.get_direction (advanced_win self))
  /\ (forall speed dir duration amp,
        In (CreateSine speed dir duration amp)
           (fst (run_advanced float_of_str cos self)) ->
        dir <> None)
  /\ ~ In (ErrorWindow DIR_ERROR) (fst (run_advanced float_of_str cos self)).
Proof.
  assert (Hget : Advanced.get_direction (advanced_win self)
                 = map (fun checked : bool => Some (negb checked))
                       (appr_buttons (advanced_win self))).
  { unfold Advanced.get_direction. apply map_ext. now intros []. }
  split; [exact Hget|]. split.
  { rewrite Hget, in_map_iff. intros [checked [H _]]. discriminate. }
  unfold run_advanced, run_lists.
  destruct (collect _ 0 _ _) as [vehicle_data|x] eqn:E;
    [|split; [intros ? ? ? ? H | intro H]; destruct H].
  apply collect_directions in E. rewrite Forall_forall in E.
  split.
  - intros speed dir duration amp Hin. apply run_vehicles_events in Hin.
    destruct Hin as [[s [d [a [Hv H]]]]|[[? H]|[[H _]|[? [? [_ [_ H]]]]]]];
      try discriminate.
    injection H as -> -> _ ->. exact (proj2 (E _ Hv)).
  - intro Hin. apply run_vehicles_events in Hin.
    destruct Hin as [[? [? [? [_ H]]]]|[[? H]|[[H _]|[v [text [Hv [Hm H]]]]]]];
      try discriminate.
    injection H as <-. destruct v as [[speed dir] amp].
    apply create_sine_texts in Hm.
    destruct Hm as [[Hm _]|[_ [Hm|Hm]]]; try discriminate.
    exact (proj2 (E _ Hv) Hm).
Qed.

End Runs.

(** ** The statements at concrete inputs *)

Module Instances.

Import Float Examples.

Lemma normalize_all_zero_witness :
  normalize [(zero, zero); (zero, zero)] = Ret [(NaN, NaN); (NaN, NaN)].
Proof.
  refine (proj1 (proj2 (proj2
            (normalize_all_zero [(zero, zero); (zero, zero)] _ _)))).
  - discriminate.
  - repeat constructor.
Defined.

Lemma normalize_peak_witness :
  exists peak : Qc,
    (0 < peak)%Qc
    /\ amax (np_abs (of_rationals [(qz 1, qz (-4))])) = Ret (Fin peak).
Proof.
  destruct (normalize_peak [(qz 1, qz (-4))]) as [peak [H1 [_ [_ [H2 _]]]]].
  - exists (qz 1). split; [now left | discriminate].
  - exists peak. split; [exact H1 | exact H2].
Defined.

Lemma run_fail_fast_witness :
  run float_of_decimal cos_poly three
  = ([CreateSine (PyStr "60") (Some true) (PyStr "0.0001") (PyStr "1");
      CreateSine (PyStr "abc") (Some true) (PyStr "0.0001") (PyStr "1");
      ErrorWindow CONVERT_ERROR],
     None).
Proof.
  refine (proj1 (run_fail_fast float_of_decimal cos_poly three
                   [(PyStr "60", Some true, PyStr "1")]
                   [(PyStr "30", Some false, PyStr "2")]
                   (PyStr "abc", Some true, PyStr "1")
                   CONVERT_ERROR eq_refl eq_refl _ eq_refl)).
  constructor; [|constructor].
  eexists. vm_compute. reflexivity.
Defined.

Lemma run_drops_incomplete_witness :
  run_lists float_of_decimal cos_poly k_band (PyStr "1")
    [PyStr ""; PyStr "60"; PyNone]
    [Some true; None; Some false]
    [PyStr "1"; PyStr "1"; PyStr "1"]
  = ([ErrorWindow DATA_ERROR], None).
Proof.
  exact (proj2 (proj2 (proj2 (proj2
           (run_drops_incomplete float_of_decimal cos_poly k_band (PyStr "1")
              [PyStr ""; PyStr "60"; PyNone]
              [Some true; None; Some false]
              [PyStr "1"; PyStr "1"; PyStr "1"] eq_refl eq_refl))))
           eq_refl).
Defined.

Lemma advanced_direction_specified_witness :
  ~ In (ErrorWindow DIR_ERROR) (fst (run_advanced float_of_decimal cos_poly three)).
Proof.
  exact (proj2 (proj2 (proj2
           (advanced_direction_specified float_of_decimal cos_poly three)))).
Defined.

(** *** Runs from the windows *)

(** No radio button of the simple window chosen: the DIR ERROR dialog. *)
Example run_no_direction :
  run float_of_decimal cos_poly (simple "60" "1" false false)
  = ([CreateSine (PyStr "60") None (PyStr "1") (PyInt 1); ErrorWindow DIR_ERROR],
     None).
Proof. reflexivity. Qed.

(** A speed that is not a number: the CONVERT ERROR dialog. *)
Example run_bad_speed :
  run float_of_decimal cos_poly (simple "abc" "1" true false)
  = ([CreateSine (PyStr "abc") (Some true) (PyStr "1") (PyInt 1);
      ErrorWindow CONVERT_ERROR],
     None).
Proof. reflexivity. Qed.

(** The advanced window as [init] leaves it: the DATA ERROR dialog. *)
Example run_no_vehicle :
  run float_of_decimal cos_poly
    {| simple_win := simple_win k_band; advanced_win := Advanced.init 3;
       simple_shown := false; metric_button := false;
       kband_rad := true; kaband_rad := false; xband_rad := false |}
  = ([ErrorWindow DATA_ERROR], None).
Proof. reflexivity. Qed.

(** One vehicle of amplitude 0: the array handed to [sounddevice.play]
    holds nan only. *)
Example run_zero_amplitude :
  run float_of_decimal cos_poly (advanced "0.0001" [("60", false, "0")]%string)
  = ([CreateSine (PyStr "60") (Some true) (PyStr "0.0001") (PyStr "0");
      Play [(NaN, NaN); (NaN, NaN); (NaN, NaN); (NaN, NaN)]],
     None).
Proof. vm_compute. reflexivity. Qed.

(** A duration of 0 seconds: the array has no row and [numpy.amax] raises. *)
Example run_zero_duration :
  run float_of_decimal cos_poly (simple "60" "0" true false)
  = ([CreateSine (PyStr "60") (Some true) (PyStr "0") (PyInt 1)],
     Some ValueError).
Proof. vm_compute. reflexivity. Qed.

(** The duration text [inf]: [int()] raises and nothing is played. *)
Example run_infinite_duration :
  run float_of_decimal cos_poly (simple "60" "inf" true false)
  = ([CreateSine (PyStr "60") (Some true) (PyStr "inf") (PyInt 1)],
     Some OverflowError).
Proof. vm_compute. reflexivity. Qed.

End Instances.

(** * Further properties of the engine *)

(** ** More on [create_sine] *)

Section SynthesisMore.

Import Float FloatFacts.

Variable float_of_str : string -> option float.
Variable cos : float -> float.

Lemma convert_ret (speed duration amplitude : pyobj) (s d a : float) :
  convert float_of_str speed duration amplitude = Ret (s, d, a)
  <-> (py_float float_of_str speed = Ret s
       /\ py_float float_of_str duration = Ret d
       /\ py_float float_of_str amplitude = Ret a).
Proof.
  unfold convert.
  destruct (py_float float_of_str speed) as [s'|]; cbn [bind];
    [|split; [discriminate | intros [H _]; discriminate]].
  destruct (py_float float_of_str duration) as [d'|]; cbn [bind];
    [|split; [discriminate | intros [_ [H _]]; discriminate]].
  destruct (py_float float_of_str amplitude) as [a'|]; cbn [bind];
    [|split; [discriminate | intros [_ [_ H]]; discriminate]].
  split.
  - intro H. injection H as -> -> ->. now repeat split.
  - intros [H1 [H2 H3]]. injection H1 as ->. injection H2 as ->.
    injection H3 as ->. reflexivity.
Qed.

(** What a returned array tells about the arguments. *)
Lemma create_sine_channels_inv (self : MainWindow)
    (speed : pyobj) (dir : direction) (duration amplitude : pyobj)
    (channels : ndarray) :
  create_sine float_of_str cos self speed dir duration amplitude
  = Ret (Channels channels) ->
  exists (approaching : bool) (b : Band) (s a : float) (d : Qc),
    dir = Some approaching
    /\ band_of self = Some b
    /\ py_float float_of_str speed = Ret s
    /\ py_float float_of_str duration = Ret (Fin d)
    /\ py_float float_of_str amplitude = Ret a.
Proof.
  intro H. destruct dir as [approaching|]; [|discriminate H].
  unfold create_sine in H. rewrite phase_of_direction in H.
  destruct (convert float_of_str speed duration amplitude) as [[[s d] a]|e] eqn:E;
    [|destruct e; discriminate H].
  apply convert_ret in E. destruct E as [Hs [Hd Ha]].
  unfold calc_frequency in H.
  destruct (band_of self) as [b|]; [|discriminate H].
  destruct d as [q| | |]; try discriminate H.
  exists approaching, b, s, a, q. repeat split; assumption.
Qed.

(** X2: with a direction given and three arguments [float()] reads,
    [create_sine] answers TRANSMIT FREQ ERROR exactly when no band button is
    active; the band is looked at before the duration is turned into a
    sample count, so this holds for the durations [inf] and [nan] too. *)
Theorem create_sine_transmit_error (self : MainWindow) (approaching : bool)
    (speed duration amplitude : pyobj) (s d a : float) :
  py_float float_of_str speed = Ret s ->
  py_float float_of_str duration = Ret d ->
  py_float float_of_str amplitude = Ret a ->
  (create_sine float_of_str cos self speed (Some approaching) duration amplitude
   = Ret (Message TRANSMIT_FREQ_ERROR)
   <-> kband_rad self = false /\ kaband_rad self = false /\ xband_rad self = false).
Proof.
  intros Hs Hd Ha.
  assert (E : convert float_of_str speed duration amplitude = Ret (s, d, a))
    by now apply convert_ret.
  unfold create_sine. rewrite phase_of_direction, E.
  unfold calc_frequency, band_of.
  destruct (kband_rad self), (kaband_rad self), (xband_rad self);
    try (split; [intro H | intros [H1 [H2 H3]]; discriminate];
         destruct (py_int _); cbn [bind] in H; discriminate H).
  split; [now repeat split | reflexivity].
Qed.

(** X3: the left channel does not depend on the direction: for the same
    speed, duration, amplitude and band, the approaching and the receding
    array have the same number of rows and the same left samples. *)
Theorem create_sine_left_channel (self : MainWindow)
    (speed duration amplitude : pyobj) (towards away : ndarray) :
  create_sine float_of_str cos self speed (Some true) duration amplitude
  = Ret (Channels towards) ->
  create_sine float_of_str cos self speed (Some false) duration amplitude
  = Ret (Channels away) ->
  List.length towards = List.length away
  /\ map fst towards = map fst away.
Proof.
  intros Ht Hr.
  destruct (create_sine_channels_inv self speed (Some true) duration amplitude
              towards Ht)
    as [_ [b [s [a [d [_ [Hb [Hs [Hd Ha]]]]]]]]].
  pose proof (calc_frequency_selected self b (meters_per_sec self s) Hb) as Hf.
  rewrite (create_sine_channels float_of_str cos self true speed duration
             amplitude s a _ _ d Hs Hd Ha Hf (phase_of_direction true)) in Ht.
  rewrite (create_sine_channels float_of_str cos self false speed duration
             amplitude s a _ _ d Hs Hd Ha Hf (phase_of_direction false)) in Hr.
  injection Ht as <-. injection Hr as <-.
  split.
  - now rewrite !transpose2_scale_length.
  - unfold scale, transpose2.
    generalize (map of_Z (arange1 (sample_count d + 1))).
    induction l as [|n l IH]; [reflexivity|].
    cbn [map combine fst]. now rewrite IH.
Qed.

Lemma mul_one_r (x : float) : mul x one = x.
Proof.
  destruct x as [q| | |]; try reflexivity.
  unfold one, of_Z. rewrite mul_fin. f_equal. apply Qcmult_1_r.
Qed.

Lemma scale_one (channels : ndarray) : scale channels one = channels.
Proof.
  unfold scale. rewrite <- (map_id channels) at 2. apply map_ext.
  intros [l r]. cbn [fst snd]. now rewrite !mul_one_r.
Qed.

(** X4: the amplitude only scales the wave of amplitude 1: when
    [create_sine] returns an array for the default amplitude [1], it returns
    for an amplitude that reads as [a] that array with every sample
    multiplied by [a]. *)
Theorem create_sine_amplitude (self : MainWindow)
    (speed : pyobj) (dir : direction) (duration amplitude : pyobj)
    (unit_wave : ndarray) (a : float) :
  create_sine float_of_str cos self speed dir duration (PyInt 1)
  = Ret (Channels unit_wave) ->
  py_float float_of_str amplitude = Ret a ->
  create_sine float_of_str cos self speed dir duration amplitude
  = Ret (Channels (scale unit_wave a)).
Proof.
  intros H1 Ha.
  destruct (create_sine_channels_inv self speed dir duration (PyInt 1) unit_wave H1)
    as [approaching [b [s [a1 [d [-> [Hb [Hs [Hd Ha1]]]]]]]]].
  pose proof (calc_frequency_selected self b (meters_per_sec self s) Hb) as Hf.
  rewrite (create_sine_channels float_of_str cos self approaching speed duration
             (PyInt 1) s a1 _ _ d Hs Hd Ha1 Hf (phase_of_direction approaching)) in H1.
  injection Ha1 as <-. fold one in H1. rewrite scale_one in H1.
  injection H1 as <-.
  exact (create_sine_channels float_of_str cos self approaching speed duration
           amplitude s a _ _ d Hs Hd Ha Hf (phase_of_direction approaching)).
Qed.





End SynthesisMore.

(** ** The sample count *)

Section SampleCount.

Import Float FloatFacts.




End SampleCount.

(** ** More on the scaling step *)

Section NormalizationMore.

Import Float FloatFacts.

(** The peak of an array of finite samples with a non-zero sample. *)
Lemma peak_of_rationals (rows : list (Qc * Qc)) :
  (exists x : Qc, In x (samples rows) /\ x <> 0%Qc) ->
  exists peak : Qc,
    (0 < peak)%Qc
    /\ In peak (map Qcabs (samples rows))
    /\ Forall (fun y => (y <= peak)%Qc) (map Qcabs (samples rows)).
Proof.
  intros [x [Hx Hx0]].
  assert (Hinx : In (Qcabs x) (map Qcabs (samples rows))) by now apply in_map.
  remember (map Qcabs (samples rows)) as L eqn:E.
  destruct L as [|y l]; [contradiction|].
  destruct (fold_Qcmax_spec l y) as [Hin Hall].
  exists (fold_left Qcmax l y). split; [|split; assumption].
  eapply Qclt_le_trans; [apply (Qcabs_pos_nonzero x Hx0)|].
  rewrite Forall_forall in Hall. now apply Hall.
Qed.

Lemma normalize_rationals (rows : list (Qc * Qc)) (peak : Qc) :
  (0 < peak)%Qc ->
  In peak (map Qcabs (samples rows)) ->
  Forall (fun y => (y <= peak)%Qc) (map Qcabs (samples rows)) ->
  normalize (of_rationals rows)
  = Ret (of_rationals (map (fun r => (fst r / peak, snd r / peak)%Qc) rows)).
Proof.
  intros Hpos Hin Hall. unfold normalize.
  rewrite (amax_rationals rows peak Hin Hall). cbn [bind].
  rewrite divide_rationals; [reflexivity | now apply Qclt_neq].
Qed.

Lemma samples_mapped (f : Qc -> Qc) (rows : list (Qc * Qc)) :
  samples (map (fun r => (f (fst r), f (snd r))) rows) = map f (samples rows).
Proof.
  induction rows as [|r rows IH]; [reflexivity|].
  cbn [samples map flat_map fst snd app]. do 2 f_equal. exact IH.
Qed.

(** X9: the scaling step is idempotent on finite arrays: scaling an
    already scaled array of finite samples (with a non-zero sample) by its
    peak gives the same array again. *)
Theorem normalize_idempotent (rows : list (Qc * Qc)) (scaled : ndarray) :
  (exists x : Qc, In x (samples rows) /\ x <> 0%Qc) ->
  normalize (of_rationals rows) = Ret scaled ->
  normalize scaled = Ret scaled.
Proof.
  intros Hnz H.
  destruct (peak_of_rationals rows Hnz) as [peak [Hpos [Hin Hall]]].
  rewrite (normalize_rationals rows peak Hpos Hin Hall) in H.
  injection H as <-.
  set (rows' := map (fun r => (fst r / peak, snd r / peak)%Qc) rows).
  assert (E : map Qcabs (samples rows')
              = map (fun x => (Qcabs x / peak)%Qc) (samples rows)).
  { unfold rows'. rewrite (samples_mapped (fun x => (x / peak)%Qc)), map_map.
    apply map_ext. intro x. now apply Qcabs_div. }
  rewrite (normalize_rationals rows' 1%Qc).
  - f_equal. unfold of_rationals. rewrite map_map. apply map_ext.
    intros [l r]. cbn [fst snd]. f_equal; f_equal; field; discriminate.
  - reflexivity.
  - rewrite E. apply in_map_iff in Hin. destruct Hin as [z [Hz Hzin]].
    apply in_map_iff. exists z. split; [|exact Hzin].
    rewrite Hz. unfold Qcdiv. apply Qcmult_inv_r. now apply Qclt_neq.
  - rewrite E, Forall_map. rewrite Forall_map in Hall.
    eapply Forall_impl; [|exact Hall]. intros z Hz. cbn beta in *.
    now apply Qcdiv_le_1.
Qed.

End NormalizationMore.

(** ** More on the runs *)

Section RunsMore.

Import Float FloatFacts.

Variable float_of_str : string -> option float.
Variable cos : float -> float.

(** The number of rows of a returned array is fixed by the duration. *)
Lemma create_sine_rows (self : MainWindow)
    (speed : pyobj) (dir : direction) (duration amplitude : pyobj)
    (channels : ndarray) :
  create_sine float_of_str cos self speed dir duration amplitude
  = Ret (Channels channels) ->
  exists d : Qc,
    py_float float_of_str duration = Ret (Fin d)
    /\ List.length channels = Z.to_nat (sample_count d).
Proof.
  intro H.
  destruct (create_sine_channels_inv float_of_str cos self speed dir duration
              amplitude channels H)
    as [approaching [b [s [a [d [-> [Hb [Hs [Hd Ha]]]]]]]]].
  pose proof (calc_frequency_selected self b (meters_per_sec self s) Hb) as Hf.
  rewrite (create_sine_channels float_of_str cos self approaching speed duration
             amplitude s a _ _ d Hs Hd Ha Hf (phase_of_direction approaching)) in H.
  injection H as <-. exists d. split; [exact Hd|].
  rewrite transpose2_scale_length, length_map, arange1_length.
  f_equal. lia.
Qed.

Lemma synthesize_completed (self : MainWindow) (duration : pyobj)
    (vehicle_data : list vehicle) :
  Forall (fun v => exists ch, synth float_of_str cos self duration v
                              = Ret (Channels ch)) vehicle_data ->
  forall acc,
  exists data,
    synthesize float_of_str cos self duration vehicle_data acc
    = (map (call duration) vehicle_data, Completed (acc ++ data))
    /\ Forall2 (fun v ch => synth float_of_str cos self duration v
                            = Ret (Channels ch)) vehicle_data data.
Proof.
  induction 1 as [|[[speed dir] amp] rest [ch Hch] _ IH]; intro acc.
  - exists []. rewrite app_nil_r. split; [reflexivity|constructor].
  - destruct (IH (acc ++ [ch])) as [data [H1 H2]].
    exists (ch :: data). cbn in *. rewrite Hch, H1, <- app_assoc.
    split; [reflexivity|]. now constructor.
Qed.

Lemma iadd_same_length (a b : ndarray) :
  List.length a = List.length b ->
  exists m, iadd a b = Ret m /\ List.length m = List.length a.
Proof.
  intro H. unfold iadd. rewrite H, Nat.eqb_refl.
  eexists. split; [reflexivity|].
  rewrite length_map, length_combine, H. apply Nat.min_id.
Qed.

Lemma mix_same_length (n : nat) (others : list ndarray) :
  Forall (fun ch => List.length ch = n) others ->
  forall first, List.length first = n ->
  exists m, mix first others = Ret m /\ List.length m = n.
Proof.
  induction 1 as [|b rest Hb _ IH]; intros first Hf.
  - now exists first.
  - destruct (iadd_same_length first b) as [m [Hm Hlen]]; [congruence|].
    cbn [mix]. rewrite Hm. cbn [bind]. apply IH. congruence.
Qed.

(** X11: mixing cannot fail in a run.  When [create_sine] returns an
    array for every retained vehicle (and there is one), all these arrays
    have one and the same number of rows, since they share the duration;
    the [+=] of [run] never raises, and the array that goes to the scaling
    step has that number of rows: the run is the calls followed by the
    scaling and playing of the mix. *)
Theorem run_vehicles_mix (self : MainWindow) (duration : pyobj)
    (vehicle_data : list vehicle) :
  vehicle_data <> [] ->
  Forall (fun v => exists ch, synth float_of_str cos self duration v
                              = Ret (Channels ch)) vehicle_data ->
  exists (main_channel : ndarray) (rows : nat),
    Forall (fun v => exists ch, synth float_of_str cos self duration v
                                = Ret (Channels ch)
                                /\ List.length ch = rows) vehicle_data
    /\ List.length main_channel = rows
    /\ run_vehicles float_of_str cos self duration vehicle_data
       = scale_and_play (map (call duration) vehicle_data) main_channel.
Proof.
  intros Hne Hall.
  destruct (synthesize_completed self duration vehicle_data Hall [])
    as [data [Hs H2]].
  cbn [app] in Hs.
  destruct vehicle_data as [|[[speed dir] amp] rest]; [congruence|].
  inversion H2 as [|? first ? others Hfirst Hrest]; subst.
  cbn [synth] in Hfirst.
  destruct (create_sine_rows self speed dir duration amp first Hfirst)
    as [d [Hd Hlen]].
  assert (Hrows : forall v ch,
             synth float_of_str cos self duration v = Ret (Channels ch) ->
             List.length ch = Z.to_nat (sample_count d)).
  { intros [[s' d'] a'] ch Hv. cbn [synth] in Hv.
    destruct (create_sine_rows self s' d' duration a' ch Hv) as [d2 [Hd2 Hl]].
    rewrite Hd in Hd2. injection Hd2 as <-. exact Hl. }
  assert (Hothers : Forall (fun ch => List.length ch = Z.to_nat (sample_count d))
                           others).
  { clear - Hrest Hrows. induction Hrest as [|v ch ? ? Hv _ IH];
      constructor; [|exact IH].
    exact (Hrows v ch Hv). }
  destruct (mix_same_length _ others Hothers first Hlen) as [m [Hm Hml]].
  exists m, (Z.to_nat (sample_count d)). split; [|split; [exact Hml|]].
  - apply Forall_forall. intros v Hv.
    destruct (proj1 (Forall_forall _ _) Hall v Hv) as [ch Hch].
    exists ch. split; [exact Hch | exact (Hrows v ch Hch)].
  - unfold run_vehicles. rewrite Hs, Hm. reflexivity.
Qed.

Lemma calls_are_calls (duration : pyobj) (l : list vehicle) :
  Forall is_call (map (call duration) l).
Proof.
  apply Forall_forall. intros e H. apply not_in_calls in H.
  destruct H as [? [? [? [_ ->]]]]. exact I.
Qed.

Lemma scale_and_play_shape (events : list event) (channels : ndarray) :
  Forall is_call events ->
  match scale_and_play events channels with
  | (evs, Some _) => Forall is_call evs
  | (evs, None) =>
      exists calls last, evs = calls ++ [last]
                         /\ Forall is_call calls /\ is_final last
  end.
Proof.
  intro H. unfold scale_and_play.
  destruct (normalize channels) as [played|x]; [|exact H].
  exists events, (Play played). now repeat split.
Qed.

(** X12: the shape of a run.  A run that raises has opened no dialog and
    played nothing: its events are [create_sine] calls only.  A run that
    does not raise ends with exactly one dialog or one playback, and
    everything before it is a [create_sine] call; so no run shows two
    dialogs, plays twice, or plays after a dialog. *)
Theorem run_shape (self : MainWindow) :
  match run float_of_str cos self with
  | (events, Some _) => Forall is_call events
  | (events, None) =>
      exists calls last, events = calls ++ [last]
                         /\ Forall is_call calls /\ is_final last
  end.
Proof.
  unfold run. destruct (simple_shown self).
  - unfold run_simple.
    set (c := CreateSine _ _ _ _).
    assert (Hc : Forall is_call [c]) by (constructor; [exact I|constructor]).
    destruct (create_sine _ _ _ _ _ _ _) as [[channels|text]|x].
    + now apply scale_and_play_shape.
    + exists [c], (ErrorWindow text). now repeat split.
    + exact Hc.
  - unfold run_advanced, run_lists.
    destruct (collect _ 0 _ _) as [vehicle_data|x]; [|constructor].
    generalize (Advanced.get_duration (advanced_win self)). intro duration.
    unfold run_vehicles.
    destruct (synthesize_cases float_of_str cos self duration vehicle_data [])
      as [[data [H _]]
         |[[before [v [after [text [_ [_ [_ H]]]]]]]
          |[before [v [after [x [_ [_ [_ H]]]]]]]]];
      rewrite H.
    + pose proof (calls_are_calls duration vehicle_data) as Hc.
      destruct data as [|first others].
      * exists (map (call duration) vehicle_data), (ErrorWindow DATA_ERROR).
        now repeat split.
      * destruct (mix first others) as [main_channel|x]; [|exact Hc].
        now apply scale_and_play_shape.
    + exists (map (call duration) before ++ [call duration v]), (ErrorWindow text).
      split; [now rewrite <- app_assoc|]. split; [|exact I].
      apply Forall_app. split; [apply calls_are_calls|].
      destruct v as [[? ?] ?]. constructor; [exact I|constructor].
    + apply Forall_app. split; [apply calls_are_calls|].
      destruct v as [[? ?] ?]. constructor; [exact I|constructor].
Qed.

(** The texts of the dialogs a run can open. *)
Lemma run_error_texts (self : MainWindow) (text : string) :
  In (ErrorWindow text) (fst (run float_of_str cos self)) ->
  text = DIR_ERROR \/ text = CONVERT_ERROR
  \/ text = TRANSMIT_FREQ_ERROR \/ text = DATA_ERROR.
Proof.
  assert (Htexts : forall speed dir duration amp t,
            create_sine float_of_str cos self speed dir duration amp
            = Ret (Message t) ->
            t = DIR_ERROR \/ t = CONVERT_ERROR
            \/ t = TRANSMIT_FREQ_ERROR \/ t = DATA_ERROR).
  { intros speed dir duration amp t H. apply create_sine_texts in H.
    destruct H as [[_ H]|[_ [H|H]]]; tauto. }
  unfold run. destruct (simple_shown self).
  - unfold run_simple.
    destruct (create_sine _ _ _ _ _ _ _) as [[channels|t]|x] eqn:E.
    + intro H. apply scale_and_play_events in H.
      destruct H as [[H|[]]|[? H]]; discriminate.
    + cbn. intros [H|[H|[]]]; [discriminate|].
      injection H as <-. eapply Htexts. exact E.
    + cbn. intros [H|[]]. discriminate.
  - unfold run_advanced, run_lists.
    destruct (collect _ 0 _ _) as [vehicle_data|x]; [|intros []].
    intro H. apply run_vehicles_events in H.
    destruct H as [[? [? [? [_ H]]]]|[[? H]|[[H _]|[v [t [_ [Hm H]]]]]]];
      try discriminate.
    + injection H as ->. tauto.
    + injection H as ->. destruct v as [[speed dir] amp].
      eapply Htexts. exact Hm.
Qed.

(** X13: every dialog a run opens has its own message: the text handed to
    [create_error_window] is one of DIR ERROR, CONVERT ERROR, TRANSMIT FREQ
    ERROR and DATA ERROR, the dialog shows that text followed by a colon
    and then the message written for it, and the fallback message
    [An error occured] is never shown. *)
Theorem run_dialog_message (self : MainWindow) (text : string) :
  In (ErrorWindow text) (fst (run float_of_str cos self)) ->
  (text = DIR_ERROR \/ text = CONVERT_ERROR
   \/ text = TRANSMIT_FREQ_ERROR \/ text = DATA_ERROR)
  /\ hd_error (create_error_window text) = Some (text ++ ": ")%string
  /\ ~ In "An error occured"%string (create_error_window text)
  /\ (text = DIR_ERROR ->
      tl (create_error_window text)
      = ["Direction for vehicle not specified"%string])
  /\ (text = CONVERT_ERROR ->
      tl (create_error_window text)
      = ["Invalid data for speed, duration,"%string; "and/or amplitude"%string])
  /\ (text = TRANSMIT_FREQ_ERROR ->
      tl (create_error_window text)
      = ["No transmit frequency was specified"%string])
  /\ (text = DATA_ERROR ->
      tl (create_error_window text)
      = ["Invalid and/or no data was specifed"%string; "for the vehicles"%string]).
Proof.
  intro H. apply run_error_texts in H.
  split; [exact H|]. split; [reflexivity|]. split.
  - destruct H as [H|[H|[H|H]]]; subst text; cbn; intuition discriminate.
  - repeat split; intros E; subst text; reflexivity.
Qed.

(** X14: in the simple window the DIR ERROR dialog opens exactly when
    neither radio button is active, whatever the entries hold. *)
Theorem run_simple_direction (self : MainWindow) :
  simple_shown self = true ->
  (In (ErrorWindow DIR_ERROR) (fst (run float_of_str cos self))
   <-> appro_rad (simple_win self) = false
       /\ recede_rad (simple_win self) = false).
Proof.
  intro Hs. unfold run, run_simple, Simple.get_direct. rewrite Hs.
  destruct (appro_rad (simple_win self)) eqn:Ea;
    [|destruct (recede_rad (simple_win self)) eqn:Er].
  - split; [|intros [H _]; discriminate].
    destruct (create_sine _ _ _ _ _ _ _) as [[channels|t]|x] eqn:E.
    + intro H. apply scale_and_play_events in H.
      destruct H as [[H|[]]|[? H]]; discriminate.
    + cbn. intros [H|[H|[]]]; [discriminate|]. injection H as ->.
      apply create_sine_texts in E. destruct E as [[E _]|[_ [E|E]]]; discriminate.
    + cbn. intros [H|[]]. discriminate.
  - split; [|intros [_ H]; discriminate].
    destruct (create_sine _ _ _ _ _ _ _) as [[channels|t]|x] eqn:E.
    + intro H. apply scale_and_play_events in H.
      destruct H as [[H|[]]|[? H]]; discriminate.
    + cbn. intros [H|[H|[]]]; [discriminate|]. injection H as ->.
      apply create_sine_texts in E. destruct E as [[E _]|[_ [E|E]]]; discriminate.
    + cbn. intros [H|[]]. discriminate.
  - split; [now split|]. intros _. cbn. right. now left.
Qed.

End RunsMore.

(** ** The further properties at concrete inputs *)

Module MoreInstances.

Import Float Examples.

Lemma create_sine_transmit_error_witness :
  create_sine float_of_decimal cos_poly (window false false false false)
    (PyStr "60") (Some true) (PyStr "inf") (PyInt 1)
  = Ret (Message TRANSMIT_FREQ_ERROR).
Proof.
  exact (proj2 (create_sine_transmit_error float_of_decimal cos_poly
                  (window false false false false) true
                  (PyStr "60") (PyStr "inf") (PyInt 1)
                  (Fin (qz 60)) PInf (of_Z 1) eq_refl eq_refl eq_refl)
           (conj eq_refl (conj eq_refl eq_refl))).
Defined.

(** The wave of 60 mph, K band, 0.0001 s, for a direction and an amplitude. *)
Lemma k_band_wave (approaching : bool) (amplitude : pyobj) (a : float) :
  py_float float_of_decimal amplitude = Ret a ->
  exists channels : ndarray,
    create_sine float_of_decimal cos_poly k_band
      (PyStr "60") (Some approaching) (PyStr "0.0001") amplitude
    = Ret (Channels channels).
Proof.
  intro Ha. eexists.
  exact (create_sine_channels float_of_decimal cos_poly k_band approaching
           (PyStr "60") (PyStr "0.0001") amplitude
           (Fin (qz 60)) a _ _ (Q2Qc (1 # 10000)) eq_refl eq_refl Ha
           (calc_frequency_selected k_band K _ eq_refl)
           (phase_of_direction approaching)).
Defined.

Lemma create_sine_amplitude_witness :
  exists unit_wave : ndarray,
    create_sine float_of_decimal cos_poly k_band
      (PyStr "60") (Some true) (PyStr "0.0001") (PyStr "2.5")
    = Ret (Channels (scale unit_wave (Fin (Q2Qc (25 # 10))))).
Proof.
  destruct (k_band_wave true (PyInt 1) (of_Z 1) eq_refl) as [unit_wave H].
  exists unit_wave.
  exact (create_sine_amplitude float_of_decimal cos_poly k_band
           (PyStr "60") (Some true) (PyStr "0.0001") (PyStr "2.5")
           unit_wave (Fin (Q2Qc (25 # 10))) H eq_refl).
Defined.

Lemma create_sine_left_channel_witness :
  exists towards away : ndarray,
    create_sine float_of_decimal cos_poly k_band
      (PyStr "60") (Some true) (PyStr "0.0001") (PyInt 1) = Ret (Channels towards)
    /\ create_sine float_of_decimal cos_poly k_band
         (PyStr "60") (Some false) (PyStr "0.0001") (PyInt 1) = Ret (Channels away)
    /\ map fst towards = map fst away.
Proof.
  destruct (k_band_wave true (PyInt 1) (of_Z 1) eq_refl) as [towards Ht].
  destruct (k_band_wave false (PyInt 1) (of_Z 1) eq_refl) as [away Hr].
  exists towards, away. split; [exact Ht|]. split; [exact Hr|].
  exact (proj2 (create_sine_left_channel float_of_decimal cos_poly k_band
                  (PyStr "60") (PyStr "0.0001") (PyInt 1) towards away Ht Hr)).
Defined.


Lemma run_vehicles_mix_witness :
  exists main_channel : ndarray,
    run_vehicles float_of_decimal cos_poly k_band (PyStr "0.0001")
      [(PyStr "60", Some true, PyStr "1"); (PyStr "60", Some false, PyStr "2")]
    = scale_and_play
        [CreateSine (PyStr "60") (Some true) (PyStr "0.0001") (PyStr "1");
         CreateSine (PyStr "60") (Some false) (PyStr "0.0001") (PyStr "2")]
        main_channel.
Proof.
  destruct (run_vehicles_mix float_of_decimal cos_poly k_band (PyStr "0.0001")
              [(PyStr "60", Some true, PyStr "1");
               (PyStr "60", Some false, PyStr "2")])
    as [main_channel [rows [_ [_ Hrun]]]].
  - discriminate.
  - constructor; [exact (k_band_wave true (PyStr "1") _ eq_refl)|].
    constructor; [exact (k_band_wave false (PyStr "2") _ eq_refl)|].
    constructor.
  - exists main_channel. exact Hrun.
Defined.


Lemma normalize_idempotent_witness :
  exists scaled : ndarray,
    normalize (of_rationals [(qz 1, qz (-4))]) = Ret scaled
    /\ normalize scaled = Ret scaled.
Proof.
  destruct (normalize (of_rationals [(qz 1, qz (-4))])) as [scaled|x] eqn:E;
    [|discriminate E].
  exists scaled. split; [reflexivity|].
  apply (normalize_idempotent [(qz 1, qz (-4))] scaled).
  - exists (qz 1). split; [now left | discriminate].
  - exact E.
Defined.

Lemma run_simple_direction_witness :
  In (ErrorWindow DIR_ERROR)
     (fst (run float_of_decimal cos_poly (simple "60" "1" false false))).
Proof.
  exact (proj2 (run_simple_direction float_of_decimal cos_poly
                  (simple "60" "1" false false) eq_refl)
           (conj eq_refl eq_refl)).
Defined.

Lemma run_dialog_message_witness :
  tl (create_error_window DATA_ERROR)
  = ["Invalid and/or no data was specifed"%string; "for the vehicles"%string].
Proof.
  refine (proj2 (proj2 (proj2 (proj2 (proj2 (proj2
            (run_dialog_message float_of_decimal cos_poly
               (advanced "1" []) DATA_ERROR _)))))) eq_refl).
  now left.
Defined.

End MoreInstances.

(** * The synthesis on doubles: properties *)

(** ** Exact integer arithmetic on doubles

    Integers below 2^53 are doubles, and adding 1.0 to one of them is
    exact: the [round(...) + 1] of [create_sine] loses nothing. *)

Module DoubleFacts.

Import Double.

Lemma shl_Z (x : positive) (j : nat) : Zpos (shl x j) = Zpos x * 2 ^ Z.of_nat j.
Proof.
  induction j as [|j IH]; [cbn; lia|].
  change (Zpos (shl x (S j))) with (2 * Zpos (shl x j)).
  rewrite IH, Nat2Z.inj_succ, Z.pow_succ_r by lia. ring.
Qed.

Lemma shl_add (x : positive) (i j : nat) : shl (shl x i) j = shl x (i + j).
Proof. unfold shl. rewrite Nat.add_comm. symmetry. apply Nat.iter_add. Qed.

Lemma digits_shl (x : positive) (j : nat) :
  Zpos (digits2_pos (shl x j)) = Zpos (digits2_pos x) + Z.of_nat j.
Proof.
  induction j as [|j IH]; [cbn; lia|].
  change (shl x (S j)) with (xO (shl x j)).
  cbn [digits2_pos]. rewrite Pos2Z.inj_succ, IH. lia.
Qed.

Lemma digits_bounds (x : positive) :
  2 ^ (Zpos (digits2_pos x) - 1) <= Zpos x < 2 ^ Zpos (digits2_pos x).
Proof.
  induction x as [x IH|x IH|]; cbn [digits2_pos]; [| |cbn; lia].
  - rewrite Pos2Z.inj_succ. change (Zpos x~1) with (2 * Zpos x + 1).
    replace (Z.succ (Zpos (digits2_pos x)) - 1) with (Zpos (digits2_pos x)) by lia.
    rewrite Z.pow_succ_r by lia.
    assert (E : 2 ^ Zpos (digits2_pos x) = 2 * 2 ^ (Zpos (digits2_pos x) - 1)).
    { rewrite <- Z.pow_succ_r by lia. f_equal. lia. }
    revert IH E. generalize (2 ^ Zpos (digits2_pos x)).
    generalize (2 ^ (Zpos (digits2_pos x) - 1)). intros; lia.
  - rewrite Pos2Z.inj_succ. change (Zpos x~0) with (2 * Zpos x).
    replace (Z.succ (Zpos (digits2_pos x)) - 1) with (Zpos (digits2_pos x)) by lia.
    rewrite Z.pow_succ_r by lia.
    assert (E : 2 ^ Zpos (digits2_pos x) = 2 * 2 ^ (Zpos (digits2_pos x) - 1)).
    { rewrite <- Z.pow_succ_r by lia. f_equal. lia. }
    revert IH E. generalize (2 ^ Zpos (digits2_pos x)).
    generalize (2 ^ (Zpos (digits2_pos x) - 1)). intros; lia.
Qed.

Lemma digits_le (x : positive) (n : Z) :
  0 <= n -> Zpos x < 2 ^ n -> Zpos (digits2_pos x) <= n.
Proof.
  intros Hn Hx. destruct (Z.le_gt_cases (Zpos (digits2_pos x)) n) as [H|H]; [exact H|].
  exfalso. pose proof (digits_bounds x) as [Hl _].
  assert (2 ^ n <= 2 ^ (Zpos (digits2_pos x) - 1)) by (apply Z.pow_le_mono_r; lia).
  lia.
Qed.

Lemma iter_pos_nat {A : Type} (f : A -> A) (p : positive) (x : A) :
  iter_pos f p x = Nat.iter (Pos.to_nat p) f x.
Proof.
  revert x. induction p as [p IH|p IH|]; intro x; cbn [iter_pos].
  - rewrite !IH, Pos2Nat.inj_xI, <- Nat.iter_add.
    replace (S (2 * Pos.to_nat p)) with (Pos.to_nat p + Pos.to_nat p + 1)%nat by lia.
    rewrite (Nat.iter_add (Pos.to_nat p + Pos.to_nat p) 1). reflexivity.
  - rewrite !IH, Pos2Nat.inj_xO, <- Nat.iter_add. f_equal. lia.
  - reflexivity.
Qed.

Lemma shr_shl (x : positive) (j : nat) :
  Nat.iter j shr_1 {| shr_m := Zpos (shl x j); shr_r := false; shr_s := false |}
  = {| shr_m := Zpos x; shr_r := false; shr_s := false |}.
Proof.
  induction j as [|j IH]; [reflexivity|].
  rewrite Nat.iter_succ_r. change (shl x (S j)) with (xO (shl x j)).
  cbn [shr_1 orb]. exact IH.
Qed.

Lemma fexp_double (e : Z) : -1021 <= e -> fexp prec emax e = e - 53.
Proof. intro H. unfold fexp, emin, prec, emax. lia. Qed.

Lemma shr_fexp_shl (x : positive) (j : nat) :
  (Z.to_nat (53 - Zpos (digits2_pos x)) <= j)%nat ->
  Zpos (digits2_pos x) <= 53 ->
  shr_fexp prec emax (Zpos (shl x j)) (- Z.of_nat j) loc_Exact
  = ({| shr_m := Zpos (shl x (Z.to_nat (53 - Zpos (digits2_pos x))));
        shr_r := false; shr_s := false |},
     Zpos (digits2_pos x) - 53).
Proof.
  intros Hj Hd. unfold shr_fexp. cbn [Zdigits2 shr_record_of_loc].
  rewrite digits_shl, fexp_double by lia.
  set (dx := Zpos (digits2_pos x)) in *.
  set (k := Z.to_nat (53 - dx)) in *.
  replace (dx + Z.of_nat j + - Z.of_nat j - 53 - - Z.of_nat j)
    with (Z.of_nat (j - k)) by lia.
  replace j with (k + (j - k))%nat at 1 by lia.
  rewrite <- shl_add.
  destruct (j - k)%nat as [|n] eqn:E.
  - cbn [Z.of_nat shr]. unfold shl at 1. cbn [Nat.iter]. f_equal. lia.
  - unfold shr. rewrite <- E.
    assert (Hp : exists p, Z.of_nat (j - k) = Zpos p).
    { exists (Pos.of_nat (j - k)). rewrite E. lia. }
    destruct Hp as [p Hp]. rewrite Hp. f_equal; [|lia].
    rewrite iter_pos_nat.
    replace (Pos.to_nat p) with (j - k)%nat by lia.
    apply shr_shl.
Qed.

Lemma binary_round_aux_shl (s : bool) (x : positive) (j : nat) :
  (Z.to_nat (53 - Zpos (digits2_pos x)) <= j)%nat ->
  Zpos (digits2_pos x) <= 53 ->
  binary_round_aux prec emax s (Zpos (shl x j)) (- Z.of_nat j) loc_Exact
  = canon s x.
Proof.
  intros Hj Hd. unfold binary_round_aux.
  rewrite (shr_fexp_shl x j Hj Hd).
  cbn [shr_m loc_of_shr_record round_nearest_even].
  set (k := Z.to_nat (53 - Zpos (digits2_pos x))) in *.
  pose proof (shr_fexp_shl x k (Nat.le_refl _) Hd) as H.
  fold k in H.
  replace (- Z.of_nat k) with (Zpos (digits2_pos x) - 53) in H by lia.
  rewrite H. cbn [shr_m].
  replace (Zpos (digits2_pos x) - 53 <=? emax - prec) with true
    by (symmetry; apply Z.leb_le; unfold emax, prec; lia).
  reflexivity.
Qed.

Lemma binary_round_shl (s : bool) (x : positive) (j : nat) :
  Zpos (digits2_pos x) <= 53 ->
  binary_round prec emax s (shl x j) (- Z.of_nat j) = canon s x.
Proof.
  intro Hd. unfold binary_round.
  rewrite digits_shl, fexp_double by lia.
  set (dx := Zpos (digits2_pos x)) in *.
  set (k := Z.to_nat (53 - dx)) in *.
  unfold shl_align.
  destruct (dx + Z.of_nat j + - Z.of_nat j - 53 - - Z.of_nat j) as [|p|p] eqn:E.
  - apply binary_round_aux_shl; fold dx; lia.
  - apply binary_round_aux_shl; fold dx; lia.
  - rewrite Pos2Nat.inj_iter.
    change (nat_rect (fun _ : nat => positive) (shl x j) (fun _ : nat => xO)
              (Pos.to_nat p))
      with (shl (shl x j) (Pos.to_nat p)).
    rewrite shl_add.
    replace (j + Pos.to_nat p)%nat with k by lia.
    replace (dx + Z.of_nat j + - Z.of_nat j - 53) with (- Z.of_nat k) by lia.
    apply binary_round_aux_shl; fold dx; fold k; lia.
Qed.

Lemma shl_0 (x : positive) : shl x 0 = x.
Proof. reflexivity. Qed.

Lemma of_Z_pos (s : bool) (x : positive) :
  Zpos (digits2_pos x) <= 53 ->
  binary_normalize prec emax (cond_Zopp s (Zpos x)) 0 s = canon s x.
Proof.
  intro Hd. destruct s; cbn [cond_Zopp Z.opp binary_normalize];
    exact (binary_round_shl _ x 0 Hd).
Qed.

Lemma py_int_canon (s : bool) (x : positive) :
  Zpos (digits2_pos x) <= 53 ->
  py_int (canon s x) = Ret (cond_Zopp s (Zpos x)).
Proof.
  intro Hd. unfold canon, py_int, trunc. f_equal. f_equal.
  set (dx := Zpos (digits2_pos x)) in *.
  destruct (Z.leb_spec 0 (dx - 53)) as [H|H].
  - replace (dx - 53) with 0 by lia. replace (53 - dx) with 0 by lia.
    cbn. lia.
  - rewrite shl_Z, Z2Nat.id by lia.
    replace (- (dx - 53)) with (53 - dx) by lia.
    apply Z.div_mul. apply Z.pow_nonzero; lia.
Qed.

Lemma one_canon : one = S754_finite false (shl 1 52) (-52).
Proof. reflexivity. Qed.

Lemma add_one (s : bool) (m x : positive) (e : Z) :
  -52 <= e ->
  shl m (Z.to_nat (e + 52)) = shl x 52 ->
  add (S754_finite s m e) one
  = binary_normalize prec emax
      (cond_Zopp s (Zpos (shl x 52)) + Zpos (shl 1 52)) (-52) false.
Proof.
  intros He Hx. rewrite one_canon. unfold add, SFadd.
  replace (Z.min e (-52)) with (-52) by lia.
  assert (E1 : fst (shl_align m e (-52)) = shl x 52).
  { unfold shl_align. destruct (-52 - e) as [|p|p] eqn:E; cbn [fst].
    - replace (e + 52) with 0 in Hx by lia. exact Hx.
    - lia.
    - rewrite Pos2Nat.inj_iter.
      change (nat_rect (fun _ : nat => positive) m (fun _ : nat => xO)
                (Pos.to_nat p))
        with (shl m (Pos.to_nat p)).
      rewrite <- Hx. f_equal. lia. }
  rewrite E1. reflexivity.
Qed.

Lemma py_int_scaled (k : Z) :
  - 2 ^ 53 < k < 2 ^ 53 ->
  py_int (binary_normalize prec emax (k * 2 ^ 52) (-52) false) = Ret k.
Proof.
  intro Hk. destruct k as [|y|y].
  - reflexivity.
  - assert (Hd : Zpos (digits2_pos y) <= 53) by (apply digits_le; lia).
    replace (Zpos y * 2 ^ 52) with (Zpos (shl y 52)) by (rewrite shl_Z; reflexivity).
    cbn [binary_normalize].
    pose proof (binary_round_shl false y 52 Hd) as B.
    change (- Z.of_nat 52) with (-52) in B. rewrite B.
    exact (py_int_canon false y Hd).
  - assert (Hd : Zpos (digits2_pos y) <= 53) by (apply digits_le; lia).
    replace (Zneg y * 2 ^ 52) with (Zneg (shl y 52)).
    2:{ change (Zneg (shl y 52)) with (- Zpos (shl y 52)). rewrite shl_Z.
        change (Zneg y) with (- Zpos y). change (Z.of_nat 52) with 52. ring. }
    cbn [binary_normalize].
    pose proof (binary_round_shl true y 52 Hd) as B.
    change (- Z.of_nat 52) with (-52) in B. rewrite B.
    exact (py_int_canon true y Hd).
Qed.

Lemma int_add_one (s : bool) (m x : positive) (e : Z) :
  -52 <= e ->
  shl m (Z.to_nat (e + 52)) = shl x 52 ->
  - 2 ^ 53 < cond_Zopp s (Zpos x) + 1 < 2 ^ 53 ->
  py_int (add (S754_finite s m e) one) = Ret (cond_Zopp s (Zpos x) + 1).
Proof.
  intros He Hx Hk. rewrite (add_one s m x e He Hx).
  replace (cond_Zopp s (Zpos (shl x 52)) + Zpos (shl 1 52))
    with ((cond_Zopp s (Zpos x) + 1) * 2 ^ 52).
  - now apply py_int_scaled.
  - rewrite !shl_Z. change (Z.of_nat 52) with 52.
    destruct s; cbn [cond_Zopp]; ring.
Qed.

Lemma nearest_nonneg (m : positive) (e : Z) : 0 <= nearest m e.
Proof.
  unfold nearest. destruct (Z.leb_spec 0 e).
  - apply Z.mul_nonneg_nonneg; [lia | apply Z.pow_nonneg; lia].
  - assert (0 <= Zpos m / 2 ^ (- e)) by (apply Z.div_pos; [lia | apply Z.pow_pos_nonneg; lia]).
    destruct (_ <=? _); lia.
Qed.

Lemma stop_exact (p : double) (r : Z) :
  rounded p = Some r ->
  - 2 ^ 53 < r < 2 ^ 53 - 1 ->
  py_int (add (round p) (of_Z 1)) = Ret (r + 1).
Proof.
  intros Hr Hb. change (of_Z 1) with one.
  destruct p as [s|s| |s m e]; try discriminate Hr.
  - injection Hr as <-. reflexivity.
  - cbn [rounded] in Hr. injection Hr as Hr. cbn [round].
    pose proof (nearest_nonneg m e) as Hn.
    destruct (Z.leb_spec 0 e) as [He|He].
    + unfold nearest in Hr. replace (0 <=? e) with true in Hr
        by (symmetry; apply Z.leb_le; lia).
      rewrite (int_add_one s m (shl m (Z.to_nat e)) e).
      * rewrite shl_Z, Z2Nat.id by lia. now rewrite Hr.
      * lia.
      * rewrite shl_add. f_equal. lia.
      * rewrite shl_Z, Z2Nat.id by lia. rewrite Hr. lia.
    + destruct (nearest m e) as [|y|y] eqn:En; [| |lia].
      * cbn [cond_Zopp] in Hr. replace (cond_Zopp s 0) with 0 in * by (now destruct s).
        subst r. cbn [binary_normalize]. reflexivity.
      * assert (Hd : Zpos (digits2_pos y) <= 53).
        { apply digits_le; [lia|]. destruct s; cbn [cond_Zopp] in Hr; lia. }
        rewrite (of_Z_pos s y Hd). unfold canon.
        rewrite (int_add_one s _ y).
        -- now rewrite Hr.
        -- pose proof (digits_bounds y). lia.
        -- rewrite shl_add. f_equal.
           pose proof (Pos2Z.is_pos (digits2_pos y)). lia.
        -- rewrite Hr. lia.
Qed.


Lemma mul_commutes (x y : double) : mul x y = mul y x.
Proof.
  unfold mul, SFmul.
  destruct x as [sx|sx| |sx mx ex], y as [sy|sy| |sy my ey];
    try reflexivity; try (now rewrite xorb_comm).
  now rewrite xorb_comm, Pos.mul_comm, Z.add_comm.
Qed.

Lemma binary_round_aux_opp (s : bool) (m e : Z) (l : location) :
  binary_round_aux prec emax (negb s) m e l
  = SFopp (binary_round_aux prec emax s m e l).
Proof.
  unfold binary_round_aux.
  destruct (shr_fexp prec emax m e l) as [mrs' e'].
  destruct (shr_fexp prec emax _ e' loc_Exact) as [mrs'' e''].
  destruct (shr_m mrs''); try reflexivity.
  now destruct (e'' <=? emax - prec).
Qed.

Lemma mul_opp_l (x y : double) : mul (opp x) y = opp (mul x y).
Proof.
  unfold mul, opp, SFmul.
  destruct x as [sx|sx| |sx mx ex], y as [sy|sy| |sy my ey];
    cbn [SFopp]; try reflexivity;
    try (now rewrite negb_xorb_l).
  rewrite <- binary_round_aux_opp. now rewrite negb_xorb_l.
Qed.

Lemma div_opp_l (x y : double) : div (opp x) y = opp (div x y).
Proof.
  unfold div, opp, SFdiv.
  destruct x as [sx|sx| |sx mx ex], y as [sy|sy| |sy my ey];
    cbn [SFopp]; try reflexivity;
    try (now rewrite negb_xorb_l).
  destruct (SFdiv_core_binary prec emax (Zpos mx) ex (Zpos my) ey) as [[mz ez] lz].
  rewrite <- binary_round_aux_opp. now rewrite negb_xorb_l.
Qed.

(** Rounding a mantissa that is not negative gives no nan. *)
Lemma shr_1_nonneg (mrs : shr_record) : 0 <= shr_m mrs -> 0 <= shr_m (shr_1 mrs).
Proof.
  destruct mrs as [m r s]. cbn [shr_m]. intro H.
  destruct m as [|[p|p|]|p]; cbn; lia.
Qed.

Lemma shr_nonneg (mrs : shr_record) (e n : Z) :
  0 <= shr_m mrs -> 0 <= shr_m (fst (shr mrs e n)).
Proof.
  intro H. unfold shr. destruct n as [|p|p]; cbn [fst]; try exact H.
  rewrite iter_pos_nat. induction (Pos.to_nat p) as [|k IH]; [exact H|].
  cbn [Nat.iter]. now apply shr_1_nonneg.
Qed.

Lemma shr_fexp_nonneg (m e : Z) (l : location) :
  0 <= m -> 0 <= shr_m (fst (shr_fexp prec emax m e l)).
Proof.
  intro H. unfold shr_fexp. apply shr_nonneg. now destruct l as [|[]].
Qed.

Lemma round_nearest_even_nonneg (m : Z) (l : location) :
  0 <= m -> 0 <= round_nearest_even m l.
Proof.
  intro H. unfold round_nearest_even. destruct l as [|[]]; try lia.
  destruct (Z.even m); lia.
Qed.

Lemma binary_round_aux_sign (s : bool) (m e : Z) (l : location) :
  0 <= m ->
  S754_nan <> binary_round_aux prec emax s m e l
  /\ sign_bit (binary_round_aux prec emax s m e l) = s.
Proof.
  intro H. unfold binary_round_aux.
  pose proof (shr_fexp_nonneg m e l H) as H1.
  destruct (shr_fexp prec emax m e l) as [mrs' e']. cbn [fst] in H1.
  pose proof (shr_fexp_nonneg _ e' loc_Exact
                (round_nearest_even_nonneg _ (loc_of_shr_record mrs') H1)) as H2.
  destruct (shr_fexp prec emax _ e' loc_Exact) as [mrs'' e'']. cbn [fst] in H2.
  destruct (shr_m mrs'') as [|p|p]; [| |lia].
  - split; [discriminate|reflexivity].
  - destruct (e'' <=? emax - prec); split; try discriminate; reflexivity.
Qed.

Lemma mul_opp_r (x y : double) : mul x (opp y) = opp (mul x y).
Proof. rewrite mul_commutes, mul_opp_l. f_equal. apply mul_commutes. Qed.

Lemma div_core_nonneg (m1 m2 : positive) (e1 e2 : Z) :
  0 <= fst (fst (SFdiv_core_binary prec emax (Zpos m1) e1 (Zpos m2) e2)).
Proof.
  unfold SFdiv_core_binary.
  set (s := e1 - e2 - _).
  set (m' := match s with Z0 => Zpos m1 | Zpos _ => Z.shiftl (Zpos m1) s | Zneg _ => 0 end).
  assert (H : 0 <= m').
  { subst m'. destruct s; try lia. apply Z.shiftl_nonneg. lia. }
  pose proof (Z_div_mod m' (Zpos m2) eq_refl) as D.
  destruct (Z.div_eucl m' (Zpos m2)) as [q r]. cbn [fst].
  destruct D as [D1 D2]. nia.
Qed.

(** The product and the quotient of numbers that are not nan, the second
    one finite and not zero, is not nan and has the sign the two signs give. *)
Lemma mul_sign (x : double) (s : bool) (m : positive) (e : Z) :
  x <> S754_nan ->
  mul x (S754_finite s m e) <> S754_nan
  /\ sign_bit (mul x (S754_finite s m e)) = xorb (sign_bit x) s.
Proof.
  intro H. unfold mul, SFmul.
  destruct x as [sx|sx| |sx mx ex]; try congruence; cbn [sign_bit];
    try (split; [discriminate|reflexivity]).
  destruct (binary_round_aux_sign (xorb sx s) (Zpos (mx * m)) (ex + e) loc_Exact)
    as [H1 H2]; [lia|].
  split; [congruence|exact H2].
Qed.

Lemma div_sign (x : double) (s : bool) (m : positive) (e : Z) :
  x <> S754_nan ->
  div x (S754_finite s m e) <> S754_nan
  /\ sign_bit (div x (S754_finite s m e)) = xorb (sign_bit x) s.
Proof.
  intro H. unfold div, SFdiv.
  destruct x as [sx|sx| |sx mx ex]; try congruence; cbn [sign_bit];
    try (split; [discriminate|reflexivity]).
  pose proof (div_core_nonneg mx m ex e) as Hq.
  destruct (SFdiv_core_binary prec emax (Zpos mx) ex (Zpos m) e) as [[mz ez] lz].
  cbn [fst] in Hq.
  destruct (binary_round_aux_sign (xorb sx s) mz ez lz Hq) as [H1 H2].
  split; [congruence|exact H2].
Qed.

End DoubleFacts.

(** ** The Doppler equation on doubles *)

Section DoubleDoppler.

Import Double DoubleFacts.

Lemma calc_frequency_band (self : MainWindow) (b : Band) (v : double) :
  band_of self = Some b ->
  calc_frequency self v
  = Some (div (mul (mul (of_Z 2) (of_Z (carrier b))) v) (of_Z 299792458)).
Proof. intro H. unfold calc_frequency. now rewrite H. Qed.

Lemma calc_frequency_opp (self : MainWindow) (v : double) :
  calc_frequency self (opp v) = option_map opp (calc_frequency self v).
Proof.
  unfold calc_frequency. destruct (band_of self); [|reflexivity].
  cbn [option_map]. now rewrite mul_opp_r, div_opp_l.
Qed.

Lemma mul_commutes_sign (s : bool) (m : positive) (e : Z) (x : double) :
  x <> S754_nan ->
  mul (S754_finite s m e) x <> S754_nan
  /\ sign_bit (mul (S754_finite s m e) x) = xorb s (sign_bit x).
Proof.
  intro H. rewrite mul_commutes, xorb_comm. now apply mul_sign.
Qed.

Lemma doubled_carrier (b : Band) :
  exists (m : positive) (e : Z),
    mul (of_Z 2) (of_Z (carrier b)) = S754_finite false m e.
Proof. destruct b; vm_compute; eauto. Qed.

Lemma calc_frequency_sign (self : MainWindow) (b : Band) (v : double) :
  band_of self = Some b ->
  v <> S754_nan ->
  exists f : double,
    calc_frequency self v = Some f /\ f <> S754_nan /\ sign_bit f = sign_bit v.
Proof.
  intros Hb Hv. rewrite (calc_frequency_band _ _ _ Hb).
  destruct (doubled_carrier b) as [m [e ->]].
  eexists. split; [reflexivity|].
  destruct (mul_commutes_sign false m e v Hv) as [H1 H2].
  change (of_Z 299792458) with (S754_finite false 5029682823036928 (-24)).
  destruct (div_sign _ false 5029682823036928 (-24) H1) as [H3 H4].
  split; [exact H3|]. rewrite H4, H2. now rewrite xorb_false_r.
Qed.




End DoubleDoppler.

(** ** [create_sine] on doubles *)

Section DoubleSynthesis.

Import Double DoubleFacts.

Variable float_of_str : string -> option double.
Variable cos : double -> double.

Lemma scale_combine_length {A : Type} (f g : A -> double) (l : list A) (a : double) :
  List.length (scale (combine (map f l) (map g l)) a) = List.length l.
Proof.
  unfold scale.
  rewrite length_map, length_combine, !length_map. apply Nat.min_id.
Qed.

Lemma scale_combine_nth {A : Type} (f g : A -> double) (l : list A) (a : double) (k : nat) :
  nth_error (scale (combine (map f l) (map g l)) a) k
  = option_map (fun n => (mul (f n) a, mul (g n) a)) (nth_error l k).
Proof.
  revert k. induction l as [|x l IH]; intros [|k]; simpl; try reflexivity.
  apply IH.
Qed.

Lemma phase_of_approaching (approaching : bool) :
  phase_of (Some approaching)
  = Some (if approaching then div pi (of_Z 2) else opp (div pi (of_Z 2))).
Proof. destruct approaching; reflexivity. Qed.

(** The array [create_sine] returns when the rounded product of the
    duration and the sample rate is [N], below 2^53 in absolute value. *)
Lemma create_sine_array (self : MainWindow) (approaching : bool)
    (speed duration amplitude : pyobj) (s d a f : double) (N : Z) :
  py_float float_of_str speed = Ret s ->
  py_float float_of_str duration = Ret d ->
  py_float float_of_str amplitude = Ret a ->
  calc_frequency self (meters_per_sec self s) = Some f ->
  rounded (mul d FREQUENCY_SAMPLE) = Some N ->
  - 2 ^ 53 < N < 2 ^ 53 - 1 ->
  create_sine float_of_str cos self speed (Some approaching) duration amplitude
  = Ret (Channels
           (scale
              (combine
                 (map (fun n => cos (angle f n)) (map of_Z (arange1 (N + 1))))
                 (map (fun n => mul (dec 19 1)
                                    (cos (sub (angle f n)
                                              (if approaching
                                               then div pi (of_Z 2)
                                               else opp (div pi (of_Z 2))))))
                      (map of_Z (arange1 (N + 1)))))
              a)).
Proof.
  intros Hs Hd Ha Hf HN Hb.
  unfold create_sine, convert. rewrite phase_of_approaching, Hs, Hd, Ha.
  cbn [bind]. rewrite Hf, (stop_exact _ _ HN Hb). reflexivity.
Qed.

(** C2, the claim as stated fails: the duration text 1e305 (written out)
    is read by [float()] as a finite number, and [create_sine] raises
    OverflowError, since the product with the sample rate is infinite. *)
Lemma create_sine_long_duration :
  float_of_decimal (power_of_ten 305)
  = Some (S754_finite false 5130671001622970 961)
  /\ create_sine float_of_decimal cos_poly Examples.k_band
       (PyStr "60") (Some true) (PyStr (power_of_ten 305)) (PyInt 1)
     = Raise OverflowError.
Proof. split; vm_compute; reflexivity. Qed.

(** C2, amended: for a direction that is given, a speed, a duration and an
    amplitude that [float()] reads, a selected band, and a duration whose
    product with 44100, rounded to the integer [N], is below 2^53 in
    absolute value, [create_sine] returns the array of max(0, N) rows whose
    row [i] (counted from 1) holds on the left
    [amplitude * cos(2 pi f i / 44100)] and on the right
    [amplitude * (1.9 * cos(2 pi f i / 44100 - phase))], every operation
    being the one on doubles, in the order of the source; [f] is the beat
    frequency of the converted speed and the phase is [+pi/2] when
    approaching and [-pi/2] when receding. *)
Theorem create_sine_samples (self : MainWindow) (b : Band) (approaching : bool)
    (speed duration amplitude : pyobj) (s d a : double) (N : Z) :
  py_float float_of_str speed = Ret s ->
  py_float float_of_str duration = Ret d ->
  py_float float_of_str amplitude = Ret a ->
  band_of self = Some b ->
  rounded (mul d FREQUENCY_SAMPLE) = Some N ->
  - 2 ^ 53 < N < 2 ^ 53 - 1 ->
  exists (channels : ndarray) (beat_frequency : double),
    create_sine float_of_str cos self speed (Some approaching) duration amplitude
    = Ret (Channels channels)
    /\ calc_frequency self (meters_per_sec self s) = Some beat_frequency
    /\ Z.of_nat (List.length channels) = Z.max 0 N
    /\ forall i : Z,
         1 <= i <= N ->
         let phase_angle :=
           if approaching then div pi (of_Z 2) else opp (div pi (of_Z 2)) in
         nth_error channels (Z.to_nat (i - 1))
         = Some (mul a (cos (angle beat_frequency (of_Z i))),
                 mul a
                     (mul (dec 19 1)
                          (cos (sub (angle beat_frequency (of_Z i)) phase_angle)))).
Proof.
  intros Hs Hd Ha Hb HN Hbound.
  pose proof (calc_frequency_band self b (meters_per_sec self s) Hb) as Hf.
  eexists. eexists. split.
  - exact (create_sine_array self approaching speed duration amplitude s d a _ N
             Hs Hd Ha Hf HN Hbound).
  - split; [exact Hf|]. split.
    + rewrite scale_combine_length, length_map, arange1_length. lia.
    + intros i Hi phase_angle.
      rewrite scale_combine_nth, nth_error_map, arange1_nth by lia.
      cbn [option_map]. f_equal. f_equal; apply mul_commutes.
Qed.


(** C5, the claim as stated fails: for the duration text [-1] the array is
    empty, while round(-1 * 44100) is -44100. *)
Lemma create_sine_length_negative_duration :
  py_float float_of_decimal (PyStr "-1") = Ret (opp (of_Z 1))
  /\ rounded (mul (opp (of_Z 1)) FREQUENCY_SAMPLE) = Some (-44100)
  /\ create_sine float_of_decimal cos_poly Examples.k_band
       (PyStr "60") (Some true) (PyStr "-1") (PyInt 1)
     = Ret (Channels []).
Proof. repeat split; vm_compute; reflexivity. Qed.

(** C5, amended: for a direction that is given, a speed, a duration and an
    amplitude that [float()] reads and a selected band, both channels of
    the returned array have the same length: [N] when [N] is not negative
    and 0 otherwise, where [N] is the double product of the duration and
    44100 rounded to an integer (a half away from zero), below 2^53 in
    absolute value. *)
Theorem create_sine_length (self : MainWindow) (b : Band) (approaching : bool)
    (speed duration amplitude : pyobj) (s d a : double) (N : Z) :
  py_float float_of_str speed = Ret s ->
  py_float float_of_str duration = Ret d ->
  py_float float_of_str amplitude = Ret a ->
  band_of self = Some b ->
  rounded (mul d FREQUENCY_SAMPLE) = Some N ->
  - 2 ^ 53 < N < 2 ^ 53 - 1 ->
  exists channels : ndarray,
    create_sine float_of_str cos self speed (Some approaching) duration amplitude
    = Ret (Channels channels)
    /\ List.length (map fst channels) = List.length (map snd channels)
    /\ Z.of_nat (List.length (map fst channels)) = Z.max 0 N
    /\ (0 <= N -> Z.of_nat (List.length (map fst channels)) = N).
Proof.
  intros Hs Hd Ha Hb HN Hbound.
  pose proof (calc_frequency_band self b (meters_per_sec self s) Hb) as Hf.
  eexists. split.
  - exact (create_sine_array self approaching speed duration amplitude s d a _ N
             Hs Hd Ha Hf HN Hbound).
  - rewrite !length_map, scale_combine_length, length_map, arange1_length.
    repeat split; lia.
Qed.

(** The error texts [create_sine] can return for a given direction. *)
Lemma create_sine_text (self : MainWindow) (approaching : bool)
    (speed duration amplitude : pyobj) (text : string) :
  create_sine float_of_str cos self speed (Some approaching) duration amplitude
  = Ret (Message text) ->
  (text = CONVERT_ERROR
   /\ convert float_of_str speed duration amplitude = Raise ValueError)
  \/ (text = TRANSMIT_FREQ_ERROR
      /\ exists v, convert float_of_str speed duration amplitude = Ret v).
Proof.
  unfold create_sine. rewrite phase_of_approaching.
  destruct (convert float_of_str speed duration amplitude) as [[[s d] a]|e].
  - destruct (calc_frequency self (meters_per_sec self s)).
    + destruct (py_int _); cbn [bind]; discriminate.
    + intro H. injection H as <-. right. split; [reflexivity|]. now eexists.
  - destruct e; try discriminate.
    intro H. injection H as <-. now left.
Qed.

Lemma convert_texts (ts td ta : string) :
  convert float_of_str (PyStr ts) (PyStr td) (PyStr ta) = Raise ValueError
  <-> (float_of_str ts = None \/ float_of_str td = None \/ float_of_str ta = None).
Proof.
  unfold convert, py_float.
  destruct (float_of_str ts); cbn [bind]; [|tauto].
  destruct (float_of_str td); cbn [bind]; [|tauto].
  destruct (float_of_str ta); cbn [bind]; [|tauto].
  split; [discriminate|]. intros [H|[H|H]]; discriminate.
Qed.

Lemma py_float_one : py_float float_of_str (PyInt 1) = Ret one.
Proof. reflexivity. Qed.

Lemma convert_default (ts td : string) :
  convert float_of_str (PyStr ts) (PyStr td) (PyInt 1) = Raise ValueError
  <-> (float_of_str ts = None \/ float_of_str td = None).
Proof.
  unfold convert. rewrite py_float_one. unfold py_float.
  destruct (float_of_str ts); cbn [bind]; [|tauto].
  destruct (float_of_str td); cbn [bind]; [|tauto].
  split; [discriminate|]. intros [H|H]; discriminate.
Qed.

Lemma create_sine_convert_error (self : MainWindow) (approaching : bool)
    (speed duration amplitude : pyobj) :
  create_sine float_of_str cos self speed (Some approaching) duration amplitude
  = Ret (Message CONVERT_ERROR)
  <-> convert float_of_str speed duration amplitude = Raise ValueError.
Proof.
  split.
  - intro H. apply create_sine_text in H.
    destruct H as [[_ H]|[H _]]; [assumption | discriminate].
  - intro H. unfold create_sine. rewrite phase_of_approaching, H. reflexivity.
Qed.

(** C7, the claim as stated fails: the speed text [nan] is not the text of
    a real number, and [create_sine] answers no CONVERT ERROR for it: it
    returns an array, of samples that are all nan. *)
Lemma create_sine_nan_speed :
  float_of_decimal "nan" = Some S754_nan
  /\ create_sine float_of_decimal cos_poly Examples.k_band
       (PyStr "nan") (Some true) (PyStr "0.0001") (PyInt 1)
     = Ret (Channels [(S754_nan, S754_nan); (S754_nan, S754_nan);
                      (S754_nan, S754_nan); (S754_nan, S754_nan)]).
Proof. split; vm_compute; reflexivity. Qed.

(** C7, amended: [create_sine] answers DIR ERROR exactly when the
    direction is not given, whatever the speed, the duration and the
    amplitude are (so the direction is looked at before the numbers); for
    a given direction and texts for the speed, the duration and the
    amplitude (or the default amplitude 1), it answers CONVERT ERROR
    exactly when [float()] raises ValueError on one of the texts; that is
    the answer for every text [float()] rejects, the empty one among them,
    and for no text that [float()] reads, be it as nan or as an infinity. *)
Theorem create_sine_errors (self : MainWindow)
    (speed duration amplitude : pyobj) :
  (forall dir : direction,
     create_sine float_of_str cos self speed dir duration amplitude
     = Ret (Message DIR_ERROR) <-> dir = None)
  /\ (forall (ts td ta : string) (approaching : bool),
        create_sine float_of_str cos self
          (PyStr ts) (Some approaching) (PyStr td) (PyStr ta)
        = Ret (Message CONVERT_ERROR)
        <-> (float_of_str ts = None \/ float_of_str td = None
             \/ float_of_str ta = None))
  /\ (forall (ts td : string) (approaching : bool),
        create_sine float_of_str cos self
          (PyStr ts) (Some approaching) (PyStr td) (PyInt 1)
        = Ret (Message CONVERT_ERROR)
        <-> (float_of_str ts = None \/ float_of_str td = None))
  /\ (forall (t : string) (approaching : bool),
        float_of_str t = None ->
        create_sine float_of_str cos self (PyStr t) (Some approaching) duration amplitude
        = Ret (Message CONVERT_ERROR)).
Proof.
  split; [|split; [|split]].
  - intros [approaching|]; split; try reflexivity; try discriminate.
    intro H. apply create_sine_text in H.
    destruct H as [[H _]|[H _]]; discriminate.
  - intros ts td ta approaching.
    rewrite create_sine_convert_error. apply convert_texts.
  - intros ts td approaching.
    rewrite create_sine_convert_error. apply convert_default.
  - intros t approaching Ht.
    unfold create_sine, convert. rewrite phase_of_approaching.
    cbn [py_float]. rewrite Ht. reflexivity.
Qed.

(** The unit factors: 1000/3600 and 1609.34/3600 as doubles. *)
Lemma unit_factor_finite (metric : bool) :
  exists (m : positive) (e : Z),
    (if metric then div (of_Z 1000) (of_Z (60 ^ 2))
     else div (dec 160934 2) (of_Z (60 ^ 2)))
    = S754_finite false m e.
Proof. destruct metric; vm_compute; eauto. Qed.

Lemma meters_per_sec_factor (self : MainWindow) (s : double) :
  meters_per_sec self s
  = mul s (if metric_button self
           then div (of_Z 1000) (of_Z (60 ^ 2))
           else div (dec 160934 2) (of_Z (60 ^ 2))).
Proof. unfold meters_per_sec. now destruct (metric_button self). Qed.

Lemma meters_per_sec_opp (self : MainWindow) (s : double) :
  meters_per_sec self (opp s) = opp (meters_per_sec self s).
Proof. rewrite !meters_per_sec_factor. apply mul_opp_l. Qed.

Lemma meters_per_sec_sign (self : MainWindow) (s : double) :
  s <> S754_nan ->
  meters_per_sec self s <> S754_nan
  /\ sign_bit (meters_per_sec self s) = sign_bit s.
Proof.
  intro H. rewrite meters_per_sec_factor.
  destruct (unit_factor_finite (metric_button self)) as [m [e ->]].
  destruct (mul_sign s false m e H) as [H1 H2].
  split; [exact H1|]. now rewrite H2, xorb_false_r.
Qed.

(** The speed that [float()] reads has no part in the kind of the result:
    an array and its number of rows, an error text, or an exception. *)
Lemma create_sine_shape_speed (self : MainWindow) (dir : direction)
    (speed speed' duration amplitude : pyobj) (s s' : double) :
  py_float float_of_str speed = Ret s ->
  py_float float_of_str speed' = Ret s' ->
  shape (create_sine float_of_str cos self speed dir duration amplitude)
  = shape (create_sine float_of_str cos self speed' dir duration amplitude).
Proof.
  intros Hs Hs'. destruct dir as [approaching|]; [|reflexivity].
  unfold create_sine, convert. rewrite phase_of_approaching, Hs, Hs'.
  cbn [bind].
  destruct (py_float float_of_str duration) as [d|e]; cbn [bind];
    [|reflexivity].
  destruct (py_float float_of_str amplitude) as [a|e]; cbn [bind];
    [|reflexivity].
  unfold calc_frequency. destruct (band_of self); [|reflexivity].
  destruct (py_int _); cbn [bind shape]; [|reflexivity].
  now rewrite !scale_combine_length.
Qed.

(** C9, the claim as stated fails: the smallest negative speed, -5e-324
    miles per hour, gives the beat frequency -0.0, which is not negative. *)
Lemma meters_per_sec_negative_underflow :
  SFltb (S754_finite true 1 (-1074)) (of_Z 0) = true
  /\ calc_frequency Examples.k_band
       (meters_per_sec Examples.k_band (S754_finite true 1 (-1074)))
     = Some (S754_zero true)
  /\ SFltb (S754_zero true) (of_Z 0) = false.
Proof. repeat split; vm_compute; reflexivity. Qed.

(** C9, amended: the speed is multiplied by the double 1000/3600 when the
    metric button is checked and by the double 1609.34/3600 otherwise; the
    conversion has no failing case, and a speed that is a number converts
    to a number of the same sign.  The conversion and the beat frequency
    are mirrored: those of [-s] are the opposites of those of [s].  A
    negative finite speed gives a beat frequency with the sign bit set (a
    negative number, -0.0 or -inf), and the speed that is read has no part
    in whether [create_sine] returns an array, answers an error text or
    raises, nor in the number of rows. *)
Theorem meters_per_sec_conversion (self : MainWindow) :
  (forall s : double,
     meters_per_sec self s
     = mul s (if metric_button self
              then div (of_Z 1000) (of_Z 3600)
              else div (dec 160934 2) (of_Z 3600)))
  /\ (forall s : double,
        s <> S754_nan ->
        meters_per_sec self s <> S754_nan
        /\ sign_bit (meters_per_sec self s) = sign_bit s)
  /\ (forall s : double,
        meters_per_sec self (opp s) = opp (meters_per_sec self s)
        /\ calc_frequency self (meters_per_sec self (opp s))
           = option_map opp (calc_frequency self (meters_per_sec self s)))
  /\ (forall (b : Band) (m : positive) (e : Z),
        band_of self = Some b ->
        exists f : double,
          calc_frequency self (meters_per_sec self (S754_finite true m e)) = Some f
          /\ f <> S754_nan /\ sign_bit f = true)
  /\ (forall (dir : direction) (speed speed' duration amplitude : pyobj)
             (s s' : double),
        py_float float_of_str speed = Ret s ->
        py_float float_of_str speed' = Ret s' ->
        shape (create_sine float_of_str cos self speed dir duration amplitude)
        = shape (create_sine float_of_str cos self speed' dir duration amplitude)).
Proof.
  split; [|split; [|split; [|split]]].
  - intro s. apply meters_per_sec_factor.
  - intros s Hs. now apply meters_per_sec_sign.
  - intro s. split; [apply meters_per_sec_opp|].
    now rewrite meters_per_sec_opp, calc_frequency_opp.
  - intros b m e Hb.
    destruct (meters_per_sec_sign self (S754_finite true m e)) as [H1 H2];
      [discriminate|].
    destruct (calc_frequency_sign self b _ Hb H1) as [f [Hf [H3 H4]]].
    exists f. split; [exact Hf|]. split; [exact H3|].
    now rewrite H4, H2.
  - intros dir speed speed' duration amplitude s s'.
    apply create_sine_shape_speed.
Qed.

(** What a returned array tells about the arguments. *)
Lemma create_sine_array_inv (self : MainWindow)
    (speed : pyobj) (dir : direction) (duration amplitude : pyobj)
    (channels : ndarray) :
  create_sine float_of_str cos self speed dir duration amplitude
  = Ret (Channels channels) ->
  exists (approaching : bool) (b : Band) (s d a : double) (N : Z),
    dir = Some approaching
    /\ band_of self = Some b
    /\ py_float float_of_str speed = Ret s
    /\ py_float float_of_str duration = Ret d
    /\ py_float float_of_str amplitude = Ret a
    /\ rounded (mul d FREQUENCY_SAMPLE) = Some N.
Proof.
  intro H. destruct dir as [approaching|]; [|discriminate H].
  unfold create_sine, convert in H. rewrite phase_of_approaching in H.
  destruct (py_float float_of_str speed) as [s|e]; cbn [bind] in H;
    [|destruct e; discriminate H].
  destruct (py_float float_of_str duration) as [d|e]; cbn [bind] in H;
    [|destruct e; discriminate H].
  destruct (py_float float_of_str amplitude) as [a|e]; cbn [bind] in H;
    [|destruct e; discriminate H].
  unfold calc_frequency in H.
  destruct (band_of self) as [b|]; [|discriminate H].
  destruct (mul d FREQUENCY_SAMPLE) as [sp|sp| |sp mp ep] eqn:E.
  - exists approaching, b, s, d, a, 0. now rewrite E.
  - destruct sp; discriminate H.
  - discriminate H.
  - exists approaching, b, s, d, a, (cond_Zopp sp (nearest mp ep)). now rewrite E.
Qed.

(** X1: [create_sine] returns an array only when the direction is given,
    a band is selected, [float()] reads the speed, the duration and the
    amplitude, and the double product of the duration and 44100 is finite;
    and it does return one, of max(0, N) rows, when moreover that product
    rounds to an integer [N] below 2^53 in absolute value. *)
Theorem create_sine_returns_samples (self : MainWindow)
    (speed : pyobj) (dir : direction) (duration amplitude : pyobj) :
  ((exists channels,
      create_sine float_of_str cos self speed dir duration amplitude
      = Ret (Channels channels))
   -> dir <> None
      /\ band_of self <> None
      /\ exists (s d a : double) (N : Z),
           py_float float_of_str speed = Ret s
           /\ py_float float_of_str duration = Ret d
           /\ py_float float_of_str amplitude = Ret a
           /\ rounded (mul d FREQUENCY_SAMPLE) = Some N)
  /\ (forall (s d a : double) (N : Z),
        dir <> None ->
        band_of self <> None ->
        py_float float_of_str speed = Ret s ->
        py_float float_of_str duration = Ret d ->
        py_float float_of_str amplitude = Ret a ->
        rounded (mul d FREQUENCY_SAMPLE) = Some N ->
        - 2 ^ 53 < N < 2 ^ 53 - 1 ->
        exists channels,
          create_sine float_of_str cos self speed dir duration amplitude
          = Ret (Channels channels)
          /\ List.length channels = Z.to_nat N).
Proof.
  split.
  - intros [channels H]. apply create_sine_array_inv in H.
    destruct H as [approaching [b [s [d [a [N [-> [Hb [Hs [Hd [Ha HN]]]]]]]]]]].
    split; [discriminate|]. split; [congruence|]. now exists s, d, a, N.
  - intros s d a N Hdir Hband Hs Hd Ha HN Hbound.
    destruct dir as [approaching|]; [|congruence].
    destruct (band_of self) as [b|] eqn:Hb; [|congruence].
    pose proof (calc_frequency_band self b (meters_per_sec self s) Hb) as Hf.
    eexists. split.
    + exact (create_sine_array self approaching speed duration amplitude s d a _ N
               Hs Hd Ha Hf HN Hbound).
    + rewrite scale_combine_length, length_map, arange1_length. f_equal. lia.
Qed.

End DoubleSynthesis.

(** ** The statements on doubles at concrete inputs *)

Module DoubleInstances.

Import Double.


(** 60 mph towards the radar on the K band for 0.015 s: the product
    0.015 * 44100 is the double 661.5, and the array has 662 rows. *)
Lemma create_sine_samples_witness :
  rounded (mul (dec 15 3) FREQUENCY_SAMPLE) = Some 662
  /\ exists channels : ndarray,
       create_sine float_of_decimal cos_poly Examples.k_band
         (PyStr "60") (Some true) (PyStr "0.015") (PyInt 1)
       = Ret (Channels channels)
       /\ Z.of_nat (List.length channels) = 662.
Proof.
  assert (Hs : py_float float_of_decimal (PyStr "60") = Ret (of_Z 60))
    by (vm_compute; reflexivity).
  assert (Hd : py_float float_of_decimal (PyStr "0.015") = Ret (dec 15 3))
    by (vm_compute; reflexivity).
  assert (Ha : py_float float_of_decimal (PyInt 1) = Ret (of_Z 1))
    by (vm_compute; reflexivity).
  assert (HN : rounded (mul (dec 15 3) FREQUENCY_SAMPLE) = Some 662)
    by (vm_compute; reflexivity).
  assert (Hb : - 2 ^ 53 < 662 < 2 ^ 53 - 1) by (split; reflexivity).
  split; [exact HN|].
  destruct (create_sine_samples float_of_decimal cos_poly Examples.k_band K true
              (PyStr "60") (PyStr "0.015") (PyInt 1)
              (of_Z 60) (dec 15 3) (of_Z 1) 662 Hs Hd Ha eq_refl HN Hb)
    as [channels [f [H1 [_ [H2 _]]]]].
  exists channels. split; [exact H1 | exact H2].
Defined.

Lemma create_sine_length_witness :
  rounded (mul (dec 175 3) FREQUENCY_SAMPLE) = Some 7717
  /\ exists channels : ndarray,
       create_sine float_of_decimal cos_poly Examples.k_band
         (PyStr "60") (Some false) (PyStr "0.175") (PyInt 1)
       = Ret (Channels channels)
       /\ Z.of_nat (List.length (map fst channels)) = 7717.
Proof.
  assert (Hs : py_float float_of_decimal (PyStr "60") = Ret (of_Z 60))
    by (vm_compute; reflexivity).
  assert (Hd : py_float float_of_decimal (PyStr "0.175") = Ret (dec 175 3))
    by (vm_compute; reflexivity).
  assert (Ha : py_float float_of_decimal (PyInt 1) = Ret (of_Z 1))
    by (vm_compute; reflexivity).
  assert (HN : rounded (mul (dec 175 3) FREQUENCY_SAMPLE) = Some 7717)
    by (vm_compute; reflexivity).
  assert (Hb : - 2 ^ 53 < 7717 < 2 ^ 53 - 1) by (split; reflexivity).
  split; [exact HN|].
  destruct (create_sine_length float_of_decimal cos_poly Examples.k_band K false
              (PyStr "60") (PyStr "0.175") (PyInt 1)
              (of_Z 60) (dec 175 3) (of_Z 1) 7717 Hs Hd Ha eq_refl HN Hb)
    as [channels [H1 [_ [H2 _]]]].
  exists channels. split; [exact H1 | exact H2].
Defined.

Lemma create_sine_errors_witness :
  float_of_decimal "" = None
  /\ create_sine float_of_decimal cos_poly Examples.k_band
       (PyStr "") (Some true) (PyStr "1") (PyInt 1)
     = Ret (Message CONVERT_ERROR).
Proof.
  split; [reflexivity|].
  exact (proj2 (proj2 (proj2
           (create_sine_errors float_of_decimal cos_poly Examples.k_band
              (PyStr "") (PyStr "1") (PyInt 1))))
           EmptyString true eq_refl).
Defined.

(** -60 mph on the K band. *)
Lemma meters_per_sec_conversion_witness :
  band_of Examples.k_band = Some K
  /\ exists f : double,
       calc_frequency Examples.k_band
         (meters_per_sec Examples.k_band (S754_finite true 8444249301319680 (-47)))
       = Some f
       /\ f <> S754_nan /\ sign_bit f = true.
Proof.
  split; [reflexivity|].
  exact (proj1 (proj2 (proj2 (proj2
           (meters_per_sec_conversion float_of_decimal cos_poly Examples.k_band))))
           K 8444249301319680%positive (-47) eq_refl).
Defined.

Lemma create_sine_returns_samples_witness :
  exists channels : ndarray,
    create_sine float_of_decimal cos_poly Examples.k_band
      (PyStr "60") (Some true) (PyStr "0.015") (PyStr "2.5")
    = Ret (Channels channels)
    /\ List.length channels = 662%nat.
Proof.
  assert (Hs : py_float float_of_decimal (PyStr "60") = Ret (of_Z 60))
    by (vm_compute; reflexivity).
  assert (Hd : py_float float_of_decimal (PyStr "0.015") = Ret (dec 15 3))
    by (vm_compute; reflexivity).
  assert (Ha : py_float float_of_decimal (PyStr "2.5") = Ret (dec 25 1))
    by (vm_compute; reflexivity).
  assert (HN : rounded (mul (dec 15 3) FREQUENCY_SAMPLE) = Some 662)
    by (vm_compute; reflexivity).
  assert (Hb : - 2 ^ 53 < 662 < 2 ^ 53 - 1) by (split; reflexivity).
  assert (Hdir : Some true <> @None bool) by discriminate.
  assert (Hband : band_of Examples.k_band <> None) by discriminate.
  exact (proj2 (create_sine_returns_samples float_of_decimal cos_poly
                  Examples.k_band (PyStr "60") (Some true) (PyStr "0.015")
                  (PyStr "2.5"))
           (of_Z 60) (dec 15 3) (dec 25 1) 662 Hdir Hband Hs Hd Ha HN Hb).
Defined.

(** The duration text [nan]: [float()] reads it, and [int()] raises
    ValueError outside the [try] of [create_sine]. *)
Example create_sine_nan_duration :
  create_sine float_of_decimal cos_poly Examples.k_band
    (PyStr "60") (Some true) (PyStr "nan") (PyInt 1)
  = Raise ValueError.
Proof. vm_compute. reflexivity. Qed.

(** The duration text [inf]. *)
Example create_sine_infinite_duration :
  create_sine float_of_decimal cos_poly Examples.k_band
    (PyStr "60") (Some true) (PyStr "inf") (PyInt 1)
  = Raise OverflowError.
Proof. vm_compute. reflexivity. Qed.

(** The speed of -1e301 miles per hour: the beat frequency is -inf. *)
Example calc_frequency_overflow :
  option_map (meters_per_sec Examples.k_band)
    (float_of_decimal (String "-"%char (power_of_ten 301)))
  = Some (S754_finite true 7515699491045295 946)
  /\ calc_frequency Examples.k_band (S754_finite true 7515699491045295 946)
     = Some (S754_infinity true).
Proof. split; vm_compute; reflexivity. Qed.

End DoubleInstances.
